(** * Slack channel service: a shallow embedding of pkg/slack/service.go

    The Go service talks to the Slack Web API through a client handle
    ([s.api]).  The remote platform is modelled as an abstract world [W]
    together with a [Client] record holding one transition function per
    API method used by the service.  Every service method is a
    computation in a small monad that threads the world and records, in
    call order, every API call it makes together with the reply it got.

    Go's [error] values are only ever observed through [err.Error()], so
    an error is modelled by its message.  Logging ([s.log]) has no effect
    on results or on remote calls and is left out. *)

From Stdlib Require Import Ascii String List Bool ZArith Lia.
Import ListNotations.
Open Scope string_scope.
Open Scope list_scope.

(** ** Data model *)

Definition error : Type := string.

(** A Go pair [(value, err)] in which exactly one side is meaningful. *)
Inductive result (A : Type) : Type :=
| Ok (a : A)
| Err (err : error).
Arguments Ok {A} a.
Arguments Err {A} err.

(** [slack.Channel], restricted to the fields the service reads.
    [Topic_Value] is [Topic.Value] and [Purpose_Value] is [Purpose.Value]. *)
Record Channel : Type := mkChannel {
  ID : string;
  Name : string;
  Topic_Value : string;
  Purpose_Value : string;
  IsPrivate : bool;
  Members : list string
}.

(** [slack.User]; [Profile_Email] is [Profile.Email]. *)
Record User : Type := mkUser {
  User_ID : string;
  IsBot : bool;
  Profile_Email : string
}.

(** [slackv1alpha1.Channel]: the fields of [Spec] and [Status.ID]. *)
Record ChannelCR : Type := mkChannelCR {
  Spec_Name : string;
  Spec_Description : string;
  Spec_Topic : string;
  Spec_Private : bool;
  Spec_Users : list string;
  Status_ID : string
}.

Record GetUsersInConversationParameters : Type := mkGetUsersParams {
  gu_ChannelID : string;
  gu_Cursor : string;
  gu_Limit : Z
}.

Record GetConversationsParameters : Type := mkGetConversationsParams {
  gc_Cursor : string;
  gc_ExcludeArchived : string;
  gc_Limit : Z;
  gc_Types : list string
}.

Definition ChannelAlreadyExistsError : string :=
  "A channel with the same name already exists".

(** ** The remote API *)

(** The methods of [*slack.Client] that the modelled service methods call.
    Each takes the world before the call and returns the reply and the
    world after it. *)
Record Client (W : Type) : Type := mkClient {
  GetConversationInfo : string -> bool -> W -> result Channel * W;
  SetPurposeOfConversation : string -> string -> W -> result Channel * W;
  SetTopicOfConversation : string -> string -> W -> result Channel * W;
  RenameConversation : string -> string -> W -> result Channel * W;
  GetUsersInConversation :
    GetUsersInConversationParameters -> W -> result (list string * string) * W;
  GetUserByEmail : string -> W -> result User * W;
  GetUserInfo : string -> W -> result User * W;
  InviteUsersToConversation : string -> list string -> W -> result Channel * W;
  KickUserFromConversation : string -> string -> W -> option error * W;
  GetConversations :
    GetConversationsParameters -> W -> result (list Channel * string) * W
}.
Arguments GetConversationInfo {W}.
Arguments SetPurposeOfConversation {W}.
Arguments SetTopicOfConversation {W}.
Arguments RenameConversation {W}.
Arguments GetUsersInConversation {W}.
Arguments GetUserByEmail {W}.
Arguments GetUserInfo {W}.
Arguments InviteUsersToConversation {W}.
Arguments KickUserFromConversation {W}.
Arguments GetConversations {W}.

(** One remote call with its arguments and the reply received. *)
Inductive Event : Type :=
| EvGetConversationInfo (channelID : string) (includeLocale : bool)
    (r : result Channel)
| EvSetPurposeOfConversation (channelID purpose : string) (r : result Channel)
| EvSetTopicOfConversation (channelID topic : string) (r : result Channel)
| EvRenameConversation (channelID channelName : string) (r : result Channel)
| EvGetUsersInConversation (params : GetUsersInConversationParameters)
    (r : result (list string * string))
| EvGetUserByEmail (email : string) (r : result User)
| EvGetUserInfo (user : string) (r : result User)
| EvInviteUsersToConversation (channelID : string) (users : list string)
    (r : result Channel)
| EvKickUserFromConversation (channelID user : string) (r : option error)
| EvGetConversations (params : GetConversationsParameters)
    (r : result (list Channel * string)).

Definition result_error {A : Type} (r : result A) : option error :=
  match r with
  | Ok _ => None
  | Err err => Some err
  end.

(** The error a recorded call came back with, if any. *)
Definition event_error (ev : Event) : option error :=
  match ev with
  | EvGetConversationInfo _ _ r => result_error r
  | EvSetPurposeOfConversation _ _ r => result_error r
  | EvSetTopicOfConversation _ _ r => result_error r
  | EvRenameConversation _ _ r => result_error r
  | EvGetUsersInConversation _ r => result_error r
  | EvGetUserByEmail _ r => result_error r
  | EvGetUserInfo _ r => result_error r
  | EvInviteUsersToConversation _ _ r => result_error r
  | EvKickUserFromConversation _ _ r => r
  | EvGetConversations _ r => result_error r
  end.

(** Calls that change a channel attribute. *)
Definition is_write (ev : Event) : bool :=
  match ev with
  | EvSetPurposeOfConversation _ _ _
  | EvSetTopicOfConversation _ _ _
  | EvRenameConversation _ _ _ => true
  | _ => false
  end.

(** Calls made on behalf of the membership comparison. *)
Definition is_membership_lookup (ev : Event) : bool :=
  match ev with
  | EvGetUsersInConversation _ _
  | EvGetUserByEmail _ _
  | EvGetUserInfo _ _ => true
  | _ => false
  end.

(** ** The service monad *)

Section Monad.
Context {W : Type}.

Definition M (A : Type) : Type := W -> A * W * list Event.

Definition ret {A : Type} (a : A) : M A := fun w => (a, w, []).

Definition bind {A B : Type} (m : M A) (f : A -> M B) : M B :=
  fun w =>
    let '(a, w1, t1) := m w in
    let '(b, w2, t2) := f a w1 in
    (b, w2, t1 ++ t2).

(** Perform one remote call and record it. *)
Definition call {A : Type} (f : W -> A * W) (ev : A -> Event) : M A :=
  fun w => let '(r, w1) := f w in (r, w1, [ev r]).

Definition value_of {A : Type} (x : A * W * list Event) : A := fst (fst x).
Definition world_of {A : Type} (x : A * W * list Event) : W := snd (fst x).
Definition trace_of {A : Type} (x : A * W * list Event) : list Event := snd x.
End Monad.

Notation "x <- m ;; k" := (bind m (fun x => k))
  (at level 61, m at next level, right associativity).

(** ** An in-memory client

    A table-driven stand-in for the remote platform, used to run the
    service on concrete scenarios.  Replies are looked up in the tables;
    the attribute setters also store the new value. *)

Fixpoint assoc {A : Type} (key : string) (table : list (string * A))
  : option A :=
  match table with
  | [] => None
  | (k, v) :: rest => if String.eqb k key then Some v else assoc key rest
  end.

Record Fake : Type := mkFake {
  fk_channels : list Channel;
  fk_users : list User;
  (** cursor -> (member IDs of that page, next cursor) *)
  fk_member_pages : list (string * (list string * string));
  (** cursor -> (channels of that page, next cursor) *)
  fk_channel_pages : list (string * (list Channel * string));
  (** user ID -> error returned when inviting that user *)
  fk_invite_errors : list (string * error);
  (** user ID -> error returned when kicking that user *)
  fk_kick_errors : list (string * error)
}.

Definition find_channel (channelID : string) (w : Fake) : option Channel :=
  find (fun c => String.eqb (ID c) channelID) (fk_channels w).

Definition store_channel (c : Channel) (w : Fake) : Fake :=
  {| fk_channels :=
       map (fun c0 => if String.eqb (ID c0) (ID c) then c else c0)
           (fk_channels w);
     fk_users := fk_users w;
     fk_member_pages := fk_member_pages w;
     fk_channel_pages := fk_channel_pages w;
     fk_invite_errors := fk_invite_errors w;
     fk_kick_errors := fk_kick_errors w |}.

Definition fake_update (channelID : string) (f : Channel -> Channel)
    (w : Fake) : result Channel * Fake :=
  match find_channel channelID w with
  | Some c => (Ok (f c), store_channel (f c) w)
  | None => (Err "channel_not_found", w)
  end.

Definition fake_page {A : Type} (cursor : string)
    (pages : list (string * (list A * string))) (w : Fake)
  : result (list A * string) * Fake :=
  match assoc cursor pages with
  | Some page => (Ok page, w)
  | None => (Err "invalid_cursor", w)
  end.

Definition fake_user (p : User -> bool) (w : Fake) : result User * Fake :=
  match find p (fk_users w) with
  | Some u => (Ok u, w)
  | None => (Err "users_not_found", w)
  end.

Definition fake : Client Fake :=
  {| GetConversationInfo := fun channelID _ w =>
       match find_channel channelID w with
       | Some c => (Ok c, w)
       | None => (Err "channel_not_found", w)
       end;
     SetPurposeOfConversation := fun channelID purpose =>
       fake_update channelID (fun c =>
         mkChannel (ID c) (Name c) (Topic_Value c) purpose (IsPrivate c)
                   (Members c));
     SetTopicOfConversation := fun channelID topic =>
       fake_update channelID (fun c =>
         mkChannel (ID c) (Name c) topic (Purpose_Value c) (IsPrivate c)
                   (Members c));
     RenameConversation := fun channelID channelName =>
       fake_update channelID (fun c =>
         mkChannel (ID c) channelName (Topic_Value c) (Purpose_Value c)
                   (IsPrivate c) (Members c));
     GetUsersInConversation := fun params w =>
       fake_page (gu_Cursor params) (fk_member_pages w) w;
     GetUserByEmail := fun email =>
       fake_user (fun u => String.eqb (Profile_Email u) email);
     GetUserInfo := fun user =>
       fake_user (fun u => String.eqb (User_ID u) user);
     InviteUsersToConversation := fun channelID users w =>
       match users with
       | [user] =>
           match assoc user (fk_invite_errors w) with
           | Some err => (Err err, w)
           | None =>
               match find_channel channelID w with
               | Some c => (Ok c, w)
               | None => (Err "channel_not_found", w)
               end
           end
       | _ => (Err "invalid_arguments", w)
       end;
     KickUserFromConversation := fun _ user w =>
       (assoc user (fk_kick_errors w), w);
     GetConversations := fun params w =>
       fake_page (gc_Cursor params) (fk_channel_pages w) w |}.

(** A stand-in for [html.UnescapeString] that decodes [&amp;] only. *)
Fixpoint unescape_amp (s : string) : string :=
  match s with
  | String "&"%char
      (String "a"%char (String "m"%char (String "p"%char
        (String ";"%char rest)))) =>
      String "&"%char (unescape_amp rest)
  | String c rest => String c (unescape_amp rest)
  | EmptyString => EmptyString
  end.

(** [fmt.Errorf] on a format string without verbs yields that string. *)
Definition errorf_plain (format : string) : error := format.

(** *** Scenarios *)

Definition team_x : Channel :=
  mkChannel "C1" "team-x" "Launch &amp;co" "" true ["U1"; "B1"].

Definition user_a : User := mkUser "U1" false "a@co.com".
Definition user_c : User := mkUser "U3" false "c@co.com".
Definition user_x : User := mkUser "UX" false "x@co.com".
Definition user_y : User := mkUser "UY" false "y@co.com".
Definition user_z : User := mkUser "UZ" false "z@co.com".
Definition bot : User := mkUser "B1" true "bot@co.com".

(** One channel whose members are a person and a bot, on one page. *)
Definition world_team : Fake :=
  mkFake [team_x] [user_a; bot; user_c]
         [("", (["U1"; "B1"], ""))] [("", ([team_x], ""))]
         [("U3", "already_in_channel")] [].

(** Members x, y, z, none of them wanted; kicking x is refused. *)
Definition world_xyz : Fake :=
  mkFake [team_x] [user_x; user_y; user_z]
         [("", (["UX"; "UY"; "UZ"], ""))] []
         [] [("UX", "cant_kick_from_general")].

(** A member listed by the platform whose profile cannot be fetched. *)
Definition world_ghost : Fake :=
  mkFake [team_x] [user_a]
         [("", (["U1"; "GHOST"], ""))] []
         [] [].

(** No member page at all: listing members fails. *)
Definition world_nolist : Fake :=
  mkFake [team_x] [user_a] [] [] [] [].

(** Membership served in two pages. *)
Definition world_two_member_pages : Fake :=
  mkFake [team_x] [user_a; user_c]
         [("", (["U1"], "page2")); ("page2", (["U3"], ""))] []
         [] [].

Definition general : Channel := mkChannel "C0" "general" "" "" false [].
Definition random : Channel := mkChannel "C2" "random" "" "" false [].
Definition team_x_old : Channel := mkChannel "C3" "team-x" "" "" false [].

(** The channel collection served in three pages. *)
Definition world_three_pages : Fake :=
  mkFake [] []
         []
         [("", ([general], "p2")); ("p2", ([random; team_x], "p3"));
          ("p3", ([team_x_old], ""))]
         [] [].

(** The second page keeps pointing at itself. *)
Definition world_cursor_cycle : Fake :=
  mkFake [] []
         []
         [("", ([general], "again")); ("again", ([random], "again"))]
         [] [].

(** The first page points to a page the platform refuses to serve. *)
Definition world_broken_page : Fake :=
  mkFake [] [] [] [("", ([general], "gone"))] [] [].

(** Channel C1 has no members. *)
Definition empty_channel : Channel := mkChannel "C1" "team-x" "" "" true [].

(** ** The service *)

(** The inner [for _, email := range userEmails] loops that set [found]. *)
Fixpoint email_found (userEmails : list string) (email : string) : bool :=
  match userEmails with
  | [] => false
  | e :: rest => if String.eqb e email then true else email_found rest email
  end.

(** The inner [for _, id := range channelUserIDs] loop that sets [found]. *)
Fixpoint id_found (channelUserIDs : list string) (userID : string) : bool :=
  match channelUserIDs with
  | [] => false
  | id :: rest => if String.eqb userID id then true else id_found rest userID
  end.

(** The [for _, channel := range channels] scan of [GetChannelByName]. *)
Fixpoint scan_channels (channels : list Channel) (name : string)
  : option Channel :=
  match channels with
  | [] => None
  | channel :: rest =>
      if String.eqb (Name channel) name then Some channel
      else scan_channels rest name
  end.

Section Service.
Context {W : Type}.
Variable api : Client W.

(** [html.UnescapeString] and [fmt.Errorf] (applied to a format string
    alone) belong to Go's standard library; the service is modelled
    over them. *)
Variable UnescapeString : string -> string.
Variable Errorf : string -> error.

Definition api_GetConversationInfo channelID includeLocale
  : M (result Channel) :=
  call (GetConversationInfo api channelID includeLocale)
       (EvGetConversationInfo channelID includeLocale).
Definition api_SetPurposeOfConversation channelID purpose
  : M (result Channel) :=
  call (SetPurposeOfConversation api channelID purpose)
       (EvSetPurposeOfConversation channelID purpose).
Definition api_SetTopicOfConversation channelID topic
  : M (result Channel) :=
  call (SetTopicOfConversation api channelID topic)
       (EvSetTopicOfConversation channelID topic).
Definition api_RenameConversation channelID channelName
  : M (result Channel) :=
  call (RenameConversation api channelID channelName)
       (EvRenameConversation channelID channelName).
Definition api_GetUsersInConversation params
  : M (result (list string * string)) :=
  call (GetUsersInConversation api params) (EvGetUsersInConversation params).
Definition api_GetUserByEmail email : M (result User) :=
  call (GetUserByEmail api email) (EvGetUserByEmail email).
Definition api_GetUserInfo user : M (result User) :=
  call (GetUserInfo api user) (EvGetUserInfo user).
Definition api_InviteUsersToConversation channelID users
  : M (result Channel) :=
  call (InviteUsersToConversation api channelID users)
       (EvInviteUsersToConversation channelID users).
Definition api_KickUserFromConversation channelID user
  : M (option error) :=
  call (KickUserFromConversation api channelID user)
       (EvKickUserFromConversation channelID user).
Definition api_GetConversations params
  : M (result (list Channel * string)) :=
  call (GetConversations api params) (EvGetConversations params).

Definition SetDescription (channelID description : string)
  : M (result Channel) :=
  r <- api_GetConversationInfo channelID false ;;
  match r with
  | Err err => ret (Err err)
  | Ok channel =>
      if String.eqb (UnescapeString (Purpose_Value channel)) description
      then ret (Ok channel)
      else
        r' <- api_SetPurposeOfConversation channelID description ;;
        match r' with
        | Err err => ret (Err err)
        | Ok channel' => ret (Ok channel')
        end
  end.

Definition SetTopic (channelID topic : string) : M (result Channel) :=
  r <- api_GetConversationInfo channelID false ;;
  match r with
  | Err err => ret (Err err)
  | Ok channel =>
      if String.eqb (UnescapeString (Topic_Value channel)) topic
      then ret (Ok channel)
      else
        r' <- api_SetTopicOfConversation channelID topic ;;
        match r' with
        | Err err => ret (Err err)
        | Ok channel' => ret (Ok channel')
        end
  end.

Definition RenameChannel (channelID newName : string) : M (result Channel) :=
  r <- api_GetConversationInfo channelID false ;;
  match r with
  | Err err => ret (Err err)
  | Ok channel =>
      if String.eqb (UnescapeString (Name channel)) newName
      then ret (Ok channel)
      else
        r' <- api_RenameConversation channelID newName ;;
        match r' with
        | Err err => ret (Err err)
        | Ok channel' => ret (Ok channel')
        end
  end.

(** One request; the cursor of the reply is dropped ([userIDs, _, err]). *)
Definition GetUsersInChannel (channelID : string) : M (result (list string)) :=
  r <- api_GetUsersInConversation
         {| gu_ChannelID := channelID; gu_Cursor := ""; gu_Limit := 100000 |} ;;
  match r with
  | Err err => ret (Err err)
  | Ok (userIDs, _) => ret (Ok userIDs)
  end.

(** The body of [for _, email := range userEmails] with the accumulated
    [errorlist]. *)
Fixpoint InviteUsers_loop (channelID : string) (userEmails : list string)
    (errorlist : list error) : M (list error) :=
  match userEmails with
  | [] => ret errorlist
  | email :: rest =>
      r <- api_GetUserByEmail email ;;
      match r with
      | Err _ =>
          InviteUsers_loop channelID rest
            (errorlist ++ [Errorf ("Error fetching user by Email " ++ email)%string])
      | Ok user =>
          r' <- api_InviteUsersToConversation channelID [User_ID user] ;;
          match r' with
          | Err err =>
              if negb (String.eqb err "already_in_channel")
                 && negb (String.eqb err "cant_invite_self")
              then InviteUsers_loop channelID rest (errorlist ++ [err])
              else InviteUsers_loop channelID rest errorlist
          | Ok _ => InviteUsers_loop channelID rest errorlist
          end
      end
  end.

Definition InviteUsers (channelID : string) (userEmails : list string)
  : M (list error) :=
  InviteUsers_loop channelID userEmails [].

(** The body of [for _, userId := range channelUserIDs]. *)
Fixpoint RemoveUsers_loop (channelID : string) (userEmails : list string)
    (channelUserIDs : list string) : M (option error) :=
  match channelUserIDs with
  | [] => ret None
  | userId :: rest =>
      r <- api_GetUserInfo userId ;;
      match r with
      | Err err => ret (Some err)
      | Ok user =>
          if negb (IsBot user) then
            if negb (email_found userEmails (Profile_Email user)) then
              e <- api_KickUserFromConversation channelID (User_ID user) ;;
              match e with
              | Some err => ret (Some err)
              | None => RemoveUsers_loop channelID userEmails rest
              end
            else RemoveUsers_loop channelID userEmails rest
          else RemoveUsers_loop channelID userEmails rest
      end
  end.

Definition RemoveUsers (channelID : string) (userEmails : list string)
  : M (option error) :=
  r <- GetUsersInChannel channelID ;;
  match r with
  | Err err => ret (Some err)
  | Ok channelUserIDs => RemoveUsers_loop channelID userEmails channelUserIDs
  end.

(** "Checking if the user is removed": [None] stands for falling out of
    the loop, [Some v] for the [return] taken inside it. *)
Fixpoint removed_loop (userEmails : list string)
    (channelUserIDs : list string) : M (option (bool * option error)) :=
  match channelUserIDs with
  | [] => ret None
  | userId :: rest =>
      r <- api_GetUserInfo userId ;;
      match r with
      | Err err => ret (Some (false, Some err))
      | Ok user =>
          if negb (IsBot user) then
            if negb (email_found userEmails (Profile_Email user))
            then ret (Some (true, None))
            else removed_loop userEmails rest
          else removed_loop userEmails rest
      end
  end.

(** "Checking if the user is added", same convention. *)
Fixpoint added_loop (channelUserIDs : list string)
    (userEmails : list string) : M (option (bool * option error)) :=
  match userEmails with
  | [] => ret None
  | email :: rest =>
      r <- api_GetUserByEmail email ;;
      match r with
      | Err err => ret (Some (false, Some err))
      | Ok user =>
          if negb (id_found channelUserIDs (User_ID user))
          then ret (Some (true, None))
          else added_loop channelUserIDs rest
      end
  end.

(** The membership part of [IsChannelUpdated], from the member listing to
    the final [return false, nil]. *)
Definition membership_drift (channelID : string) (userEmails : list string)
  : M (bool * option error) :=
  r <- GetUsersInChannel channelID ;;
  match r with
  | Err err => ret (false, Some err)
  | Ok channelUserIDs =>
      a <- added_loop channelUserIDs userEmails ;;
      match a with
      | Some v => ret v
      | None =>
          d <- removed_loop userEmails channelUserIDs ;;
          match d with
          | Some v => ret v
          | None => ret (false, None)
          end
      end
  end.

Definition IsChannelUpdated (channel : ChannelCR)
  : M (bool * option error) :=
  let channelID := Status_ID channel in
  let name := Spec_Name channel in
  let topic := Spec_Topic channel in
  let description := Spec_Description channel in
  let userEmails := Spec_Users channel in
  r <- api_GetConversationInfo (Status_ID channel) false ;;
  match r with
  | Err err => ret (false, Some err)
  | Ok existingChannel =>
      if negb (String.eqb (UnescapeString (Name existingChannel)) name)
      then ret (true, None)
      else if negb (String.eqb (UnescapeString (Topic_Value existingChannel))
                               topic)
      then ret (true, None)
      else if negb (String.eqb
                      (UnescapeString (Purpose_Value existingChannel))
                      description)
      then ret (true, None)
      else
        membership_drift channelID userEmails
  end.

Definition IsValidChannel (channel : ChannelCR) : option error :=
  if (Z.of_nat (length (Spec_Users channel)) <? 1)%Z
  then Some (Errorf "Users can not be empty")
  else None.

(** The unbounded [for { ... }] of [GetChannelByName].  [fuel] bounds the
    number of page requests; [None] means the bound was reached before
    the loop ended. *)
Fixpoint GetChannelByName_loop (fuel : nat) (name cursor : string)
  : M (option (result Channel)) :=
  match fuel with
  | O => ret None
  | S fuel' =>
      r <- api_GetConversations
             {| gc_Cursor := cursor;
                gc_ExcludeArchived := "false";
                gc_Limit := 200;
                gc_Types := ["private_channel"; "public_channel"] |} ;;
      match r with
      | Err err => ret (Some (Err err))
      | Ok (channels, nextCursor) =>
          match scan_channels channels name with
          | Some channel => ret (Some (Ok channel))
          | None =>
              if String.eqb nextCursor ""
              then ret (Some (Err (Errorf ChannelAlreadyExistsError)))
              else GetChannelByName_loop fuel' name nextCursor
          end
      end
  end.

Definition GetChannelByName (fuel : nat) (name : string)
  : M (option (result Channel)) :=
  GetChannelByName_loop fuel name "".

(** [GetChannel]: one fetch, passed on as it is. *)
Definition GetChannel (channelID : string) : M (result Channel) :=
  r <- api_GetConversationInfo channelID false ;;
  match r with
  | Err err => ret (Err err)
  | Ok channel => ret (Ok channel)
  end.

(** [GetChannelCRFromChannel] fills the [Spec] of a fresh resource;
    [Status.ID] keeps its zero value. *)
Definition GetChannelCRFromChannel (existingChannel : Channel) : ChannelCR :=
  {| Spec_Name := Name existingChannel;
     Spec_Description := Purpose_Value existingChannel;
     Spec_Topic := Topic_Value existingChannel;
     Spec_Private := IsPrivate existingChannel;
     Spec_Users := Members existingChannel;
     Status_ID := "" |}.

(** ** Vocabulary for stating properties of call traces *)

(** The parameters [GetUsersInChannel] and [GetChannelByName] send. *)
Definition members_request (channelID : string)
  : GetUsersInConversationParameters :=
{| gu_ChannelID := channelID; gu_Cursor := ""; gu_Limit := 100000 |}.

Definition channels_request (cursor : string) : GetConversationsParameters :=
{| gc_Cursor := cursor;
   gc_ExcludeArchived := "false";
   gc_Limit := 200;
   gc_Types := ["private_channel"; "public_channel"] |}.

Definition succeeded (ev : Event) : Prop := event_error ev = None.

(** A trace stops at its first failed call: when [failure] is [None] every
    call succeeded, and when it is [Some err] the last call, and only the
    last, failed, with [err]. *)
Definition stops_at_first_failure (t : list Event) (failure : option error)
  : Prop :=
match failure with
| None => Forall succeeded t
| Some err =>
    exists t' ev,
      t = t' ++ [ev] /\ Forall succeeded t' /\ event_error ev = Some err
end.

(** The error carried by the [return] a membership loop took, if any. *)
Definition failure_of (v : option (bool * option error)) : option error :=
match v with
| Some (_, failure) => failure
| None => None
end.

Definition is_user_info (ev : Event) : bool :=
match ev with
| EvGetUserInfo _ _ => true
| _ => false
end.

(** The two invite errors that mean the goal is already met. *)
Definition already_satisfied (err : error) : bool :=
String.eqb err "already_in_channel" || String.eqb err "cant_invite_self".

(** The error entry, if any, that [InviteUsers] reports for a call. *)
Definition invite_error (ev : Event) : list error :=
match ev with
| EvGetUserByEmail email (Err _) =>
    [Errorf ("Error fetching user by Email " ++ email)%string]
| EvInviteUsersToConversation _ _ (Err err) =>
    if already_satisfied err then [] else [err]
| _ => []
end.

(** The calls [InviteUsers] makes for a list of emails: one lookup per
    email, in order, each successful lookup followed by the invite of the
    user found, whatever the replies. *)
Inductive invite_trace (channelID : string)
  : list string -> list Event -> Prop :=
| invite_trace_nil : invite_trace channelID [] []
| invite_trace_lookup_failed email rest err t :
    invite_trace channelID rest t ->
    invite_trace channelID (email :: rest) (EvGetUserByEmail email (Err err) :: t)
| invite_trace_invited email rest user r t :
    invite_trace channelID rest t ->
    invite_trace channelID (email :: rest)
      (EvGetUserByEmail email (Ok user)
       :: EvInviteUsersToConversation channelID [User_ID user] r :: t).

(** A call of an [InviteUsers] trace that needs no error entry. *)
Definition invite_call_ok (ev : Event) : Prop :=
match ev with
| EvGetUserByEmail _ r => exists user, r = Ok user
| EvInviteUsersToConversation _ _ r =>
    match r with
    | Ok _ => True
    | Err err => err = "already_in_channel" \/ err = "cant_invite_self"
    end
| _ => True
end.

(** One page of the remote channel collection: the cursor that requests
    it, its channels and the cursor it returns. *)
Record Page : Type := mkPage {
  page_cursor : string;
  page_channels : list Channel;
  page_next : string
}.

Definition page_event (p : Page) : Event :=
EvGetConversations (channels_request (page_cursor p))
                   (Ok (page_channels p, page_next p)).

Definition all_channels (pages : list Page) : list Channel :=
flat_map page_channels pages.

(** [serves w cursor pages w'] : from world [w], following cursors from
    [cursor], the platform serves exactly [pages], the last of which
    returns the empty cursor, and ends in world [w']. *)
Inductive serves (w : W) (cursor : string) : list Page -> W -> Prop :=
| serves_last channels w1 :
    GetConversations api (channels_request cursor) w
      = (Ok (channels, ""), w1) ->
    serves w cursor [mkPage cursor channels ""] w1
| serves_more channels next w1 rest w2 :
    GetConversations api (channels_request cursor) w
      = (Ok (channels, next), w1) ->
    next <> "" ->
    serves w1 next rest w2 ->
    serves w cursor (mkPage cursor channels next :: rest) w2.

(** The cursors submitted by the page requests of a trace. *)
Definition requested_cursors (t : list Event) : list string :=
flat_map (fun ev => match ev with
                    | EvGetConversations params _ => [gc_Cursor params]
                    | _ => []
                    end) t.

(** Calls that only read from the platform. *)
Definition is_read (ev : Event) : bool :=
match ev with
| EvGetConversationInfo _ _ _
| EvGetUsersInConversation _ _
| EvGetUserByEmail _ _
| EvGetUserInfo _ _
| EvGetConversations _ _ => true
| _ => false
end.

Definition is_email_lookup (ev : Event) : bool :=
match ev with
| EvGetUserByEmail _ _ => true
| _ => false
end.

(** The user IDs whose profile a trace asks for, in call order. *)
Definition info_requests (t : list Event) : list string :=
flat_map (fun ev => match ev with
                    | EvGetUserInfo user _ => [user]
                    | _ => []
                    end) t.

(** The profiles a trace received, in call order. *)
Definition profiles (t : list Event) : list User :=
flat_map (fun ev => match ev with
                    | EvGetUserInfo _ (Ok user) => [user]
                    | _ => []
                    end) t.

(** The (channel, user) pairs a trace tries to kick, in call order. *)
Definition kick_attempts (t : list Event) : list (string * string) :=
flat_map (fun ev => match ev with
                    | EvKickUserFromConversation channelID user _ =>
                        [(channelID, user)]
                    | _ => []
                    end) t.

(** The emails a trace looks up, in call order. *)
Definition email_lookups (t : list Event) : list string :=
flat_map (fun ev => match ev with
                    | EvGetUserByEmail email _ => [email]
                    | _ => []
                    end) t.

(** A member that the removal loops act on: not a bot, email not desired. *)
Definition to_remove (userEmails : list string) (user : User) : bool :=
negb (IsBot user) && negb (email_found userEmails (Profile_Email user)).

(** A resolved desired member that is among the listed member IDs. *)
Definition member_present (channelUserIDs : list string) (ev : Event) : Prop :=
match ev with
| EvGetUserByEmail _ (Ok user) => id_found channelUserIDs (User_ID user) = true
| _ => True
end.

(** A listed member that is a bot or is desired. *)
Definition member_wanted (userEmails : list string) (ev : Event) : Prop :=
match ev with
| EvGetUserInfo _ (Ok user) => to_remove userEmails user = false
| _ => True
end.

(** The three attribute comparisons of [IsChannelUpdated] all agree. *)
Definition attributes_match (desired : ChannelCR) (existing : Channel) : Prop :=
UnescapeString (Name existing) = Spec_Name desired /\
UnescapeString (Topic_Value existing) = Spec_Topic desired /\
UnescapeString (Purpose_Value existing) = Spec_Description desired.


(** A page request of [GetChannelByName] answered with a page that holds
    no channel called [name] and that is not the last one. *)
Definition page_without_match (name : string) (ev : Event) : Prop :=
exists cursor channels next,
  ev = EvGetConversations (channels_request cursor) (Ok (channels, next)) /\
  Forall (fun c => Name c <> name) channels /\
  next <> "".

(** ** Reasoning about computations *)

Lemma bind_call {A B : Type} (f : W -> A * W) (ev : A -> Event)
      (k : A -> M B) (w w1 : W) (r : A) :
  f w = (r, w1) ->
  bind (call f ev) k w =
    (value_of (k r w1), world_of (k r w1), ev r :: trace_of (k r w1)).
Proof.
  intros H. unfold bind, call, value_of, world_of, trace_of. rewrite H.
  destruct (k r w1) as [[b w2] t2]. reflexivity.
Qed.

(** Split the next remote call of the goal into its reply and world. *)
Ltac next_call E :=
  match goal with
  | |- context [bind (call ?f ?ev) ?k ?w] =>
      let r := fresh "r" in
      let w1 := fresh "w" in
      destruct (f w) as [r w1] eqn:E;
      rewrite (bind_call f ev k w w1 r E)
  end.

(** ** The attribute setters *)

Ltac setter_equal H Heq :=
  unfold SetTopic, SetDescription, RenameChannel, api_GetConversationInfo;
  rewrite (bind_call _ _ _ _ _ _ H);
  rewrite Heq, String.eqb_refl; reflexivity.

Lemma SetTopic_equal channelID topic w channel w1 :
  GetConversationInfo api channelID false w = (Ok channel, w1) ->
  UnescapeString (Topic_Value channel) = topic ->
  SetTopic channelID topic w =
    (Ok channel, w1, [EvGetConversationInfo channelID false (Ok channel)]).
Proof. intros H Heq. setter_equal H Heq. Qed.

Lemma SetDescription_equal channelID description w channel w1 :
  GetConversationInfo api channelID false w = (Ok channel, w1) ->
  UnescapeString (Purpose_Value channel) = description ->
  SetDescription channelID description w =
    (Ok channel, w1, [EvGetConversationInfo channelID false (Ok channel)]).
Proof. intros H Heq. setter_equal H Heq. Qed.

Lemma RenameChannel_equal channelID newName w channel w1 :
  GetConversationInfo api channelID false w = (Ok channel, w1) ->
  UnescapeString (Name channel) = newName ->
  RenameChannel channelID newName w =
    (Ok channel, w1, [EvGetConversationInfo channelID false (Ok channel)]).
Proof. intros H Heq. setter_equal H Heq. Qed.

Ltac setter_written :=
  unfold SetTopic, SetDescription, RenameChannel, api_GetConversationInfo,
    api_SetTopicOfConversation, api_SetPurposeOfConversation,
    api_RenameConversation;
  let E := fresh "E" in
  let E' := fresh "E" in
  let Hs := fresh "Hs" in
  next_call E;
  match goal with
  | r : result Channel |- _ =>
      destruct r as [channel | err];
      [ | simpl; discriminate ]
  end;
  match goal with
  | |- context [String.eqb ?a ?b] => destruct (String.eqb_spec a b) as [Hs | Hs]
  end;
  [ simpl; discriminate | ];
  intros _; eexists _, _; split; [ reflexivity | exact Hs ].

Lemma SetTopic_written channelID topic w :
  existsb is_write (trace_of (SetTopic channelID topic w)) = true ->
  exists channel w1,
    GetConversationInfo api channelID false w = (Ok channel, w1) /\
    UnescapeString (Topic_Value channel) <> topic.
Proof. setter_written. Qed.

Lemma SetDescription_written channelID description w :
  existsb is_write (trace_of (SetDescription channelID description w)) = true ->
  exists channel w1,
    GetConversationInfo api channelID false w = (Ok channel, w1) /\
    UnescapeString (Purpose_Value channel) <> description.
Proof. setter_written. Qed.

Lemma RenameChannel_written channelID newName w :
  existsb is_write (trace_of (RenameChannel channelID newName w)) = true ->
  exists channel w1,
    GetConversationInfo api channelID false w = (Ok channel, w1) /\
    UnescapeString (Name channel) <> newName.
Proof. setter_written. Qed.

(** C1.  When the fetched topic, description or name, once unescaped,
    equals the requested value, SetTopic, SetDescription and
    RenameChannel make the single read call, no write call, leave the
    world as the read left it and return the fetched channel.  Conversely
    a write call appears among the calls of a setter only if the read
    succeeded and the unescaped current value differs from the requested
    one. *)
Theorem setters_write_only_on_mismatch :
  forall channelID value w,
    (forall channel w1,
        GetConversationInfo api channelID false w = (Ok channel, w1) ->
        (UnescapeString (Topic_Value channel) = value ->
         SetTopic channelID value w =
           (Ok channel, w1,
            [EvGetConversationInfo channelID false (Ok channel)])) /\
        (UnescapeString (Purpose_Value channel) = value ->
         SetDescription channelID value w =
           (Ok channel, w1,
            [EvGetConversationInfo channelID false (Ok channel)])) /\
        (UnescapeString (Name channel) = value ->
         RenameChannel channelID value w =
           (Ok channel, w1,
            [EvGetConversationInfo channelID false (Ok channel)]))) /\
    (existsb is_write (trace_of (SetTopic channelID value w)) = true ->
     exists channel w1,
       GetConversationInfo api channelID false w = (Ok channel, w1) /\
       UnescapeString (Topic_Value channel) <> value) /\
    (existsb is_write (trace_of (SetDescription channelID value w)) = true ->
     exists channel w1,
       GetConversationInfo api channelID false w = (Ok channel, w1) /\
       UnescapeString (Purpose_Value channel) <> value) /\
    (existsb is_write (trace_of (RenameChannel channelID value w)) = true ->
     exists channel w1,
       GetConversationInfo api channelID false w = (Ok channel, w1) /\
       UnescapeString (Name channel) <> value).
Proof.
  intros channelID value w. split; [ | split; [ | split ] ].
  - intros channel w1 H. split; [ | split ].
    + apply SetTopic_equal; assumption.
    + apply SetDescription_equal; assumption.
    + apply RenameChannel_equal; assumption.
  - apply SetTopic_written.
  - apply SetDescription_written.
  - apply RenameChannel_written.
Qed.

Lemma trace_bind_call {A B : Type} (f : W -> A * W) (ev : A -> Event)
      (k : A -> M B) (w w1 : W) (r : A) :
  f w = (r, w1) ->
  trace_of (bind (call f ev) k w) = ev r :: trace_of (k r w1).
Proof. intros H. rewrite (bind_call f ev k w w1 r H). reflexivity. Qed.

Lemma value_bind_call {A B : Type} (f : W -> A * W) (ev : A -> Event)
      (k : A -> M B) (w w1 : W) (r : A) :
  f w = (r, w1) ->
  value_of (bind (call f ev) k w) = value_of (k r w1).
Proof. intros H. rewrite (bind_call f ev k w w1 r H). reflexivity. Qed.

(** Name the reply and the world of the next remote call of the goal. *)
Ltac step E :=
  match goal with
  | |- context [bind (call ?f ?ev) ?k ?w] =>
      let r := fresh "r" in
      let w1 := fresh "w" in
      destruct (f w) as [r w1] eqn:E;
      rewrite ?(trace_bind_call f ev k w w1 r E),
              ?(value_bind_call f ev k w w1 r E)
  end.

(** ** Validation *)

(** C8.  IsValidChannel returns the "Users can not be empty" error for
    every channel resource whose Users list is empty and returns nil for
    every one whose Users list has at least one element, whatever the
    other fields hold. *)
Theorem IsValidChannel_depends_on_users_only :
  forall name description topic private id,
    IsValidChannel (mkChannelCR name description topic private [] id)
      = Some (Errorf "Users can not be empty") /\
    forall user users,
      IsValidChannel
        (mkChannelCR name description topic private (user :: users) id)
      = None.
Proof.
  intros name description topic private id. split.
  - reflexivity.
  - intros user users. unfold IsValidChannel. cbn [Spec_Users length].
    destruct (Z.ltb_spec (Z.of_nat (S (length users))) 1) as [Hlt | Hge].
    + lia.
    + reflexivity.
Qed.

(** ** Listing members *)

Lemma GetUsersInChannel_run channelID w r w1 :
  GetUsersInConversation api (members_request channelID) w = (r, w1) ->
  GetUsersInChannel channelID w =
    (match r with
     | Ok (userIDs, _) => Ok userIDs
     | Err err => Err err
     end,
     w1,
     [EvGetUsersInConversation (members_request channelID) r]).
Proof.
  intros H. unfold GetUsersInChannel, api_GetUsersInConversation.
  fold (members_request channelID).
  rewrite (bind_call _ _ _ _ _ _ H).
  destruct r as [[userIDs cursor] | err]; reflexivity.
Qed.

(** ** Traces that stop at the first failure *)

Lemma stops_nil : stops_at_first_failure [] None.
Proof. constructor. Qed.

Lemma stops_failed ev err :
  event_error ev = Some err -> stops_at_first_failure [ev] (Some err).
Proof. intros H. exists [], ev. repeat split; [ constructor | exact H ]. Qed.

Lemma stops_cons ev t failure :
  succeeded ev ->
  stops_at_first_failure t failure ->
  stops_at_first_failure (ev :: t) failure.
Proof.
  intros Hev Ht. destruct failure as [err | ]; simpl in *.
  - destruct Ht as (t' & ev' & -> & Hok & Herr).
    exists (ev :: t'), ev'. repeat split; [ constructor | ]; assumption.
  - constructor; assumption.
Qed.

Lemma stops_app t1 t2 failure :
  Forall succeeded t1 ->
  stops_at_first_failure t2 failure ->
  stops_at_first_failure (t1 ++ t2) failure.
Proof.
  intros H1 H2. induction H1 as [ | ev t1 Hev _ IH]; simpl.
  - exact H2.
  - apply stops_cons; assumption.
Qed.

Lemma succeeded_prefix_last pre ev post t' last err :
  pre ++ ev :: post = t' ++ [last] ->
  Forall succeeded t' ->
  event_error ev = Some err ->
  post = [] /\ ev = last.
Proof.
  revert pre. induction t' as [ | x t' IH]; intros pre Heq Hok Herr.
  - destruct pre as [ | p pre]; simpl in Heq.
    + injection Heq as -> ->. split; reflexivity.
    + injection Heq as _ Heq. destruct pre; discriminate.
  - inversion Hok as [ | ? ? Hx Hok']; subst.
    destruct pre as [ | p pre]; simpl in Heq.
    + injection Heq as -> _. unfold succeeded in Hx. congruence.
    + injection Heq as _ Heq. eapply IH; eassumption.
Qed.

(** In a trace that stops at its first failure, a failed call is the last
    call and its error is the reported one. *)
Lemma stops_failed_call_is_last t failure pre ev post err :
  stops_at_first_failure t failure ->
  t = pre ++ ev :: post ->
  event_error ev = Some err ->
  post = [] /\ failure = Some err.
Proof.
  intros Hstop -> Herr. destruct failure as [err' | ]; simpl in Hstop.
  - destruct Hstop as (t' & last & Heq & Hok & Hlast).
    destruct (succeeded_prefix_last _ _ _ _ _ _ Heq Hok Herr) as [-> ->].
    split; congruence.
  - apply Forall_app in Hstop. destruct Hstop as [_ Hstop].
    inversion Hstop as [ | ? ? Hev _]. unfold succeeded in Hev. congruence.
Qed.

(** ** Removing members *)

Lemma RemoveUsers_loop_stops channelID userEmails channelUserIDs :
  forall w,
    stops_at_first_failure
      (trace_of (RemoveUsers_loop channelID userEmails channelUserIDs w))
      (value_of (RemoveUsers_loop channelID userEmails channelUserIDs w)).
Proof.
  induction channelUserIDs as [ | userId rest IH]; intros w; simpl.
  - apply stops_nil.
  - unfold api_GetUserInfo. step E. destruct r as [user | err].
    + destruct (IsBot user); simpl;
        [ apply stops_cons; [ reflexivity | apply IH ] | ].
      destruct (email_found userEmails (Profile_Email user)); simpl;
        [ apply stops_cons; [ reflexivity | apply IH ] | ].
      unfold api_KickUserFromConversation. step E'.
      apply stops_cons; [ reflexivity | ].
      destruct r as [err | ].
      * apply stops_failed. reflexivity.
      * apply stops_cons; [ reflexivity | apply IH ].
    + apply stops_failed. reflexivity.
Qed.

Lemma RemoveUsers_run_listed channelID userEmails w userIDs cursor w1 :
  GetUsersInConversation api (members_request channelID) w
    = (Ok (userIDs, cursor), w1) ->
  RemoveUsers channelID userEmails w =
    (value_of (RemoveUsers_loop channelID userEmails userIDs w1),
     world_of (RemoveUsers_loop channelID userEmails userIDs w1),
     EvGetUsersInConversation (members_request channelID)
                              (Ok (userIDs, cursor))
     :: trace_of (RemoveUsers_loop channelID userEmails userIDs w1)).
Proof.
  intros H. unfold RemoveUsers, bind.
  rewrite (GetUsersInChannel_run _ _ _ _ H).
  destruct (RemoveUsers_loop channelID userEmails userIDs w1) as [[v w2] t].
  reflexivity.
Qed.

Lemma RemoveUsers_run_not_listed channelID userEmails w err w1 :
  GetUsersInConversation api (members_request channelID) w = (Err err, w1) ->
  RemoveUsers channelID userEmails w =
    (Some err, w1,
     [EvGetUsersInConversation (members_request channelID) (Err err)]).
Proof.
  intros H. unfold RemoveUsers, bind.
  rewrite (GetUsersInChannel_run _ _ _ _ H). reflexivity.
Qed.

Lemma RemoveUsers_stops channelID userEmails w :
  stops_at_first_failure (trace_of (RemoveUsers channelID userEmails w))
                         (value_of (RemoveUsers channelID userEmails w)).
Proof.
  destruct (GetUsersInConversation api (members_request channelID) w)
    as [[[userIDs cursor] | err] w1] eqn:E.
  - rewrite (RemoveUsers_run_listed _ _ _ _ _ _ E).
    apply stops_cons; [ reflexivity | apply RemoveUsers_loop_stops ].
  - rewrite (RemoveUsers_run_not_listed _ _ _ _ _ E).
    apply stops_failed. reflexivity.
Qed.

(** C3.  RemoveUsers is fail-fast on removals.  Whenever one of its kick
    calls fails, that call is the last remote call RemoveUsers makes and
    its error is the value returned.  In particular, with members
    [x; y; z] listed, x not a bot and not among the desired emails, and
    the kick of x refused, RemoveUsers returns that error after exactly
    three calls (list members, user info of x, kick of x): nothing is
    asked or attempted for y and z. *)
Theorem RemoveUsers_fail_fast_on_kick :
  forall channelID userEmails w,
    (forall pre c user err post,
        trace_of (RemoveUsers channelID userEmails w)
          = pre ++ EvKickUserFromConversation c user (Some err) :: post ->
        post = [] /\
        value_of (RemoveUsers channelID userEmails w) = Some err) /\
    (forall x y z cursor w1 ux w2 err w3,
        GetUsersInConversation api (members_request channelID) w
          = (Ok ([x; y; z], cursor), w1) ->
        GetUserInfo api x w1 = (Ok ux, w2) ->
        IsBot ux = false ->
        email_found userEmails (Profile_Email ux) = false ->
        KickUserFromConversation api channelID (User_ID ux) w2
          = (Some err, w3) ->
        RemoveUsers channelID userEmails w =
          (Some err, w3,
           [EvGetUsersInConversation (members_request channelID)
                                     (Ok ([x; y; z], cursor));
            EvGetUserInfo x (Ok ux);
            EvKickUserFromConversation channelID (User_ID ux) (Some err)])).
Proof.
  intros channelID userEmails w. split.
  - intros pre c user err post Heq.
    eapply stops_failed_call_is_last.
    + apply RemoveUsers_stops.
    + exact Heq.
    + reflexivity.
  - intros x y z cursor w1 ux w2 err w3 Hlist Hinfo Hbot Hfound Hkick.
    rewrite (RemoveUsers_run_listed _ _ _ _ _ _ Hlist).
    cbn [RemoveUsers_loop]. unfold api_GetUserInfo.
    rewrite (bind_call _ _ _ _ _ _ Hinfo).
    rewrite Hbot, Hfound. cbn [negb].
    unfold api_KickUserFromConversation.
    rewrite (bind_call _ _ _ _ _ _ Hkick). reflexivity.
Qed.

(** C10.  RemoveUsers is fail-fast on its reads.  If listing the members
    fails, RemoveUsers returns that error after that single call.  If a
    user-info lookup fails, that lookup is the last remote call made, so
    no kick follows it, and its error is the value returned. *)
Theorem RemoveUsers_fail_fast_on_reads :
  forall channelID userEmails w,
    (forall err w1,
        GetUsersInConversation api (members_request channelID) w
          = (Err err, w1) ->
        RemoveUsers channelID userEmails w =
          (Some err, w1,
           [EvGetUsersInConversation (members_request channelID) (Err err)]))
    /\
    (forall pre user err post,
        trace_of (RemoveUsers channelID userEmails w)
          = pre ++ EvGetUserInfo user (Err err) :: post ->
        post = [] /\
        value_of (RemoveUsers channelID userEmails w) = Some err).
Proof.
  intros channelID userEmails w. split.
  - intros err w1 H. apply RemoveUsers_run_not_listed. exact H.
  - intros pre user err post Heq.
    eapply stops_failed_call_is_last.
    + apply RemoveUsers_stops.
    + exact Heq.
    + reflexivity.
Qed.

(** ** Bots *)

(** Every kick issued by the removal loop directly follows the user-info
    reply it acts on, and that reply describes a user who is not a bot
    and whose email is not among the desired ones. *)
Lemma RemoveUsers_loop_kick_justified channelID userEmails channelUserIDs :
  forall w pre c kicked r post,
    trace_of (RemoveUsers_loop channelID userEmails channelUserIDs w)
      = pre ++ EvKickUserFromConversation c kicked r :: post ->
    exists pre' userId user,
      pre = pre' ++ [EvGetUserInfo userId (Ok user)] /\
      IsBot user = false /\
      email_found userEmails (Profile_Email user) = false /\
      kicked = User_ID user /\ c = channelID.
Proof.
  induction channelUserIDs as [ | userId rest IH];
    intros w pre c kicked r post; simpl.
  - intros Heq. destruct pre; discriminate.
  - unfold api_GetUserInfo. step E.
    assert (Hskip :
      forall user w',
        EvGetUserInfo userId (Ok user)
          :: trace_of (RemoveUsers_loop channelID userEmails rest w')
          = pre ++ EvKickUserFromConversation c kicked r :: post ->
        exists pre' userId' user',
          pre = pre' ++ [EvGetUserInfo userId' (Ok user')] /\
          IsBot user' = false /\
          email_found userEmails (Profile_Email user') = false /\
          kicked = User_ID user' /\ c = channelID).
    { intros user w' Heq. destruct pre as [ | p pre]; [ discriminate | ].
      injection Heq as <- Heq.
      destruct (IH _ _ _ _ _ _ Heq) as (pre' & u' & user' & -> & H).
      exists (EvGetUserInfo userId (Ok user) :: pre'), u', user'.
      split; [ reflexivity | exact H ]. }
    destruct r0 as [user | err].
    + destruct (IsBot user) eqn:Hbot; simpl; [ apply Hskip | ].
      destruct (email_found userEmails (Profile_Email user)) eqn:Hfound;
        simpl; [ apply Hskip | ].
      unfold api_KickUserFromConversation. step E'.
      intros Heq. destruct pre as [ | p pre]; [ discriminate | ].
      injection Heq as <- Heq.
      destruct pre as [ | p' pre].
      * injection Heq as <- <- _ _.
        exists [], userId, user. repeat split; assumption.
      * injection Heq as <- Heq.
        destruct r0 as [err | ]; [ destruct pre; discriminate | ].
        destruct (IH _ _ _ _ _ _ Heq) as (pre' & u' & user' & -> & H).
        exists (EvGetUserInfo userId (Ok user)
                :: EvKickUserFromConversation channelID (User_ID user) None
                :: pre'), u', user'.
        split; [ reflexivity | exact H ].
    + intros Heq. destruct pre as [ | p pre]; [ discriminate | ].
      injection Heq as _ Heq. destruct pre; discriminate.
Qed.

(** ** Drift detection *)

Lemma bind_run {A B : Type} (m : M A) (k : A -> M B) (w w1 : W) (a : A)
      (t1 : list Event) :
  m w = (a, w1, t1) ->
  bind m k w =
    (value_of (k a w1), world_of (k a w1), t1 ++ trace_of (k a w1)).
Proof.
  intros H. unfold bind, value_of, world_of, trace_of. rewrite H.
  destruct (k a w1) as [[b w2] t2]. reflexivity.
Qed.

Lemma removed_loop_stops userEmails channelUserIDs :
  forall w,
    stops_at_first_failure
      (trace_of (removed_loop userEmails channelUserIDs w))
      (failure_of (value_of (removed_loop userEmails channelUserIDs w))) /\
    (forall b err,
        value_of (removed_loop userEmails channelUserIDs w)
          = Some (b, Some err) -> b = false).
Proof.
  induction channelUserIDs as [ | userId rest IH]; intros w; simpl.
  - split; [ apply stops_nil | discriminate ].
  - unfold api_GetUserInfo. step E.
    assert (Hskip :
      forall user,
        stops_at_first_failure
          (EvGetUserInfo userId (Ok user)
             :: trace_of (removed_loop userEmails rest w0))
          (failure_of (value_of (removed_loop userEmails rest w0))) /\
        (forall b err,
            value_of (removed_loop userEmails rest w0) = Some (b, Some err) ->
            b = false)).
    { intros user. destruct (IH w0) as [Hs Hb].
      split; [ apply stops_cons; [ reflexivity | exact Hs ] | exact Hb ]. }
    destruct r as [user | err].
    + destruct (IsBot user); simpl; [ apply Hskip | ].
      destruct (email_found userEmails (Profile_Email user)); simpl;
        [ apply Hskip | ].
      split; [ | discriminate ].
      repeat constructor.
    + split.
      * apply stops_failed. reflexivity.
      * intros b err' H. injection H as <- _. reflexivity.
Qed.

(** The removed-member check reports drift only on the user-info reply of
    a member who is not a bot and whose email is not desired. *)
Lemma removed_loop_drift userEmails channelUserIDs :
  forall w,
    value_of (removed_loop userEmails channelUserIDs w) = Some (true, None) ->
    exists pre userId user,
      trace_of (removed_loop userEmails channelUserIDs w)
        = pre ++ [EvGetUserInfo userId (Ok user)] /\
      IsBot user = false /\
      email_found userEmails (Profile_Email user) = false.
Proof.
  induction channelUserIDs as [ | userId rest IH]; intros w; simpl.
  - discriminate.
  - unfold api_GetUserInfo. step E.
    assert (Hskip :
      forall user,
        value_of (removed_loop userEmails rest w0) = Some (true, None) ->
        exists pre userId' user',
          EvGetUserInfo userId (Ok user)
            :: trace_of (removed_loop userEmails rest w0)
            = pre ++ [EvGetUserInfo userId' (Ok user')] /\
          IsBot user' = false /\
          email_found userEmails (Profile_Email user') = false).
    { intros user Hv. destruct (IH w0 Hv) as (pre & u' & user' & -> & H).
      exists (EvGetUserInfo userId (Ok user) :: pre), u', user'.
      split; [ reflexivity | exact H ]. }
    destruct r as [user | err].
    + destruct (IsBot user) eqn:Hbot; simpl; [ apply Hskip | ].
      destruct (email_found userEmails (Profile_Email user)) eqn:Hfound;
        simpl; [ apply Hskip | ].
      intros _. exists [], userId, user. repeat split; assumption.
    + discriminate.
Qed.

Lemma added_loop_stops channelUserIDs userEmails :
  forall w,
    stops_at_first_failure
      (trace_of (added_loop channelUserIDs userEmails w))
      (failure_of (value_of (added_loop channelUserIDs userEmails w))) /\
    (forall b err,
        value_of (added_loop channelUserIDs userEmails w)
          = Some (b, Some err) -> b = false) /\
    Forall (fun ev => is_user_info ev = false)
           (trace_of (added_loop channelUserIDs userEmails w)).
Proof.
  induction userEmails as [ | email rest IH]; intros w; simpl.
  - split; [ apply stops_nil | split; [ discriminate | constructor ] ].
  - unfold api_GetUserByEmail. step E. destruct r as [user | err].
    + destruct (id_found channelUserIDs (User_ID user)); simpl.
      * destruct (IH w0) as (Hs & Hb & Hu).
        split; [ apply stops_cons; [ reflexivity | exact Hs ] | ].
        split; [ exact Hb | constructor; [ reflexivity | exact Hu ] ].
      * split; [ repeat constructor | ].
        split; [ discriminate | repeat constructor ].
    + split; [ apply stops_failed; reflexivity | ].
      split; [ | repeat constructor ].
      intros b err' H. injection H as <- _. reflexivity.
Qed.

(** Unfold [membership_drift] along the replies it receives. *)
Ltac open_membership_drift channelID userEmails w :=
  let E := fresh "Elist" in
  let Ea := fresh "Eadded" in
  let Ed := fresh "Eremoved" in
  unfold membership_drift;
  destruct (GetUsersInConversation api (members_request channelID) w)
    as [[[userIDs cursor] | err] w1] eqn:E;
  rewrite (bind_run _ _ _ _ _ _ (GetUsersInChannel_run _ _ _ _ E));
  [ destruct (added_loop userIDs userEmails w1) as [[a w2] ta] eqn:Ea;
    rewrite (bind_run _ _ _ _ _ _ Ea);
    destruct a as [v | ];
    [ | destruct (removed_loop userEmails userIDs w2) as [[d w3] td] eqn:Ed;
        rewrite (bind_run _ _ _ _ _ _ Ed) ]
  | ];
  cbn [value_of world_of trace_of fst snd ret app].

Lemma membership_drift_stops channelID userEmails w :
  stops_at_first_failure
    (trace_of (membership_drift channelID userEmails w))
    (snd (value_of (membership_drift channelID userEmails w))) /\
  (forall err,
      snd (value_of (membership_drift channelID userEmails w)) = Some err ->
      fst (value_of (membership_drift channelID userEmails w)) = false).
Proof.
  open_membership_drift channelID userEmails w.
  - destruct (added_loop_stops userIDs userEmails w1) as (Hs & Hb & _).
    rewrite Eadded in Hs, Hb. cbn [value_of trace_of fst snd] in Hs, Hb.
    destruct v as [b failure]. cbn [failure_of fst snd] in *.
    rewrite app_nil_r.
    split; [ apply stops_cons; [ reflexivity | exact Hs ] | ].
    intros err ->. eapply Hb. reflexivity.
  - destruct (added_loop_stops userIDs userEmails w1) as (Hs & _ & _).
    rewrite Eadded in Hs. cbn [value_of trace_of fst snd failure_of] in Hs.
    destruct (removed_loop_stops userEmails userIDs w2) as (Hs' & Hb').
    rewrite Eremoved in Hs', Hb'. cbn [value_of trace_of fst snd] in Hs', Hb'.
    destruct d as [[b failure] | ];
      cbn [failure_of fst snd ret value_of trace_of] in *.
    + rewrite app_nil_r.
      split; [ apply stops_cons; [ reflexivity | ];
               apply stops_app; assumption | ].
      intros err ->. eapply Hb'. reflexivity.
    + rewrite app_nil_r.
      split; [ | discriminate ].
      apply stops_cons; [ reflexivity | ]. apply stops_app; assumption.
  - split; [ apply stops_failed; reflexivity | reflexivity ].
Qed.

Lemma not_user_info_last t pre userId r :
  Forall (fun ev => is_user_info ev = false) t ->
  t <> pre ++ [EvGetUserInfo userId r].
Proof.
  intros H ->. apply Forall_app in H. destruct H as [_ H].
  inversion H as [ | ? ? Hev _]. discriminate.
Qed.

Lemma membership_drift_reason channelID userEmails w pre userId user :
  value_of (membership_drift channelID userEmails w) = (true, None) ->
  trace_of (membership_drift channelID userEmails w)
    = pre ++ [EvGetUserInfo userId (Ok user)] ->
  IsBot user = false /\ email_found userEmails (Profile_Email user) = false.
Proof.
  open_membership_drift channelID userEmails w.
  - intros _ Heq. exfalso.
    destruct (added_loop_stops userIDs userEmails w1) as (_ & _ & Hu).
    rewrite Eadded in Hu. cbn [trace_of snd] in Hu.
    rewrite app_nil_r in Heq.
    eapply (not_user_info_last
              (EvGetUsersInConversation (members_request channelID)
                                        (Ok (userIDs, cursor)) :: ta));
      [ constructor; [ reflexivity | exact Hu ] | exact Heq ].
  - destruct d as [v | ]; cbn [ret value_of fst snd]; [ | discriminate ].
    intros -> Heq. rewrite app_nil_r in Heq.
    pose proof (removed_loop_drift userEmails userIDs w2) as Hd.
    rewrite Eremoved in Hd. cbn [value_of trace_of fst snd] in Hd.
    destruct (Hd eq_refl) as (pre' & u' & user' & -> & Hbot & Hfound).
    change (EvGetUsersInConversation (members_request channelID)
              (Ok (userIDs, cursor))
            :: ta ++ pre' ++ [EvGetUserInfo u' (Ok user')])
      with ((EvGetUsersInConversation (members_request channelID)
               (Ok (userIDs, cursor)) :: ta)
            ++ pre' ++ [EvGetUserInfo u' (Ok user')]) in Heq.
    rewrite app_assoc in Heq. apply app_inj_tail in Heq.
    destruct Heq as [_ Heq]. injection Heq as _ <-. split; assumption.
  - discriminate.
Qed.

Ltac open_IsChannelUpdated H :=
  unfold IsChannelUpdated, api_GetConversationInfo;
  rewrite (bind_call _ _ _ _ _ _ H).

Lemma IsChannelUpdated_run_mismatch channel w existingChannel w1 :
  GetConversationInfo api (Status_ID channel) false w
    = (Ok existingChannel, w1) ->
  UnescapeString (Name existingChannel) <> Spec_Name channel \/
  UnescapeString (Topic_Value existingChannel) <> Spec_Topic channel \/
  UnescapeString (Purpose_Value existingChannel) <> Spec_Description channel ->
  IsChannelUpdated channel w =
    ((true, None), w1,
     [EvGetConversationInfo (Status_ID channel) false (Ok existingChannel)]).
Proof.
  intros H Hdiff. open_IsChannelUpdated H.
  destruct (String.eqb_spec (UnescapeString (Name existingChannel))
                            (Spec_Name channel)) as [Hn | Hn];
    [ | reflexivity ].
  destruct (String.eqb_spec (UnescapeString (Topic_Value existingChannel))
                            (Spec_Topic channel)) as [Ht | Ht];
    [ | reflexivity ].
  destruct (String.eqb_spec (UnescapeString (Purpose_Value existingChannel))
                            (Spec_Description channel)) as [Hd | Hd];
    [ | reflexivity ].
  exfalso. destruct Hdiff as [Hdiff | [Hdiff | Hdiff]]; contradiction.
Qed.

Lemma IsChannelUpdated_run_match channel w existingChannel w1 :
  GetConversationInfo api (Status_ID channel) false w
    = (Ok existingChannel, w1) ->
  UnescapeString (Name existingChannel) = Spec_Name channel ->
  UnescapeString (Topic_Value existingChannel) = Spec_Topic channel ->
  UnescapeString (Purpose_Value existingChannel) = Spec_Description channel ->
  IsChannelUpdated channel w =
    (value_of (membership_drift (Status_ID channel) (Spec_Users channel) w1),
     world_of (membership_drift (Status_ID channel) (Spec_Users channel) w1),
     EvGetConversationInfo (Status_ID channel) false (Ok existingChannel)
     :: trace_of
          (membership_drift (Status_ID channel) (Spec_Users channel) w1)).
Proof.
  intros H Hn Ht Hd. open_IsChannelUpdated H.
  rewrite Hn, Ht, Hd, !String.eqb_refl. reflexivity.
Qed.

Lemma IsChannelUpdated_run_error channel w err w1 :
  GetConversationInfo api (Status_ID channel) false w = (Err err, w1) ->
  IsChannelUpdated channel w =
    ((false, Some err), w1,
     [EvGetConversationInfo (Status_ID channel) false (Err err)]).
Proof. intros H. open_IsChannelUpdated H. reflexivity. Qed.

(** The three ways [IsChannelUpdated] can go after its first call. *)
Lemma IsChannelUpdated_cases channel w :
  (exists err w1,
      IsChannelUpdated channel w =
        ((false, Some err), w1,
         [EvGetConversationInfo (Status_ID channel) false (Err err)])) \/
  (exists existingChannel w1,
      IsChannelUpdated channel w =
        ((true, None), w1,
         [EvGetConversationInfo (Status_ID channel) false
                                (Ok existingChannel)])) \/
  (exists existingChannel w1,
      IsChannelUpdated channel w =
        (value_of (membership_drift (Status_ID channel) (Spec_Users channel) w1),
         world_of (membership_drift (Status_ID channel) (Spec_Users channel) w1),
         EvGetConversationInfo (Status_ID channel) false (Ok existingChannel)
         :: trace_of
              (membership_drift (Status_ID channel) (Spec_Users channel) w1))).
Proof.
  destruct (GetConversationInfo api (Status_ID channel) false w)
    as [[existingChannel | err] w1] eqn:E.
  - destruct (String.eqb_spec (UnescapeString (Name existingChannel))
                              (Spec_Name channel)) as [Hn | Hn];
      [ | right; left; exists existingChannel, w1;
          apply IsChannelUpdated_run_mismatch; auto ].
    destruct (String.eqb_spec (UnescapeString (Topic_Value existingChannel))
                              (Spec_Topic channel)) as [Ht | Ht];
      [ | right; left; exists existingChannel, w1;
          apply IsChannelUpdated_run_mismatch; auto ].
    destruct (String.eqb_spec
                (UnescapeString (Purpose_Value existingChannel))
                (Spec_Description channel)) as [Hd | Hd];
      [ | right; left; exists existingChannel, w1;
          apply IsChannelUpdated_run_mismatch; auto ].
    right; right. exists existingChannel, w1.
    apply IsChannelUpdated_run_match; assumption.
  - left. exists err, w1. apply IsChannelUpdated_run_error. exact E.
Qed.

Lemma IsChannelUpdated_stops channel w :
  stops_at_first_failure (trace_of (IsChannelUpdated channel w))
                         (snd (value_of (IsChannelUpdated channel w))) /\
  (forall err,
      snd (value_of (IsChannelUpdated channel w)) = Some err ->
      fst (value_of (IsChannelUpdated channel w)) = false).
Proof.
  destruct (IsChannelUpdated_cases channel w)
    as [(err & w1 & ->) | [(c & w1 & ->) | (c & w1 & ->)]];
    cbn [value_of trace_of fst snd].
  - split; [ apply stops_failed; reflexivity | reflexivity ].
  - split; [ repeat constructor | discriminate ].
  - destruct (membership_drift_stops (Status_ID channel) (Spec_Users channel)
                                     w1) as [Hs Hb].
    split; [ apply stops_cons; [ reflexivity | exact Hs ] | exact Hb ].
Qed.

(** C6.  After a successful fetch, IsChannelUpdated compares name, topic
    and description before anything else: if the unescaped observed name
    differs from the desired name (and likewise for the topic and for the
    description) it returns (true, nil) having made the fetch as its only
    remote call, so no member list, user-by-email or user-info call is
    made.  Only when all three agree does it go on to the membership
    comparison, whose first call is the member listing. *)
Theorem IsChannelUpdated_attributes_before_membership :
  forall channel w existingChannel w1,
    GetConversationInfo api (Status_ID channel) false w
      = (Ok existingChannel, w1) ->
    (UnescapeString (Name existingChannel) <> Spec_Name channel ->
     IsChannelUpdated channel w =
       ((true, None), w1,
        [EvGetConversationInfo (Status_ID channel) false
                               (Ok existingChannel)])) /\
    (UnescapeString (Topic_Value existingChannel) <> Spec_Topic channel ->
     IsChannelUpdated channel w =
       ((true, None), w1,
        [EvGetConversationInfo (Status_ID channel) false
                               (Ok existingChannel)])) /\
    (UnescapeString (Purpose_Value existingChannel)
       <> Spec_Description channel ->
     IsChannelUpdated channel w =
       ((true, None), w1,
        [EvGetConversationInfo (Status_ID channel) false
                               (Ok existingChannel)])) /\
    (UnescapeString (Name existingChannel) = Spec_Name channel ->
     UnescapeString (Topic_Value existingChannel) = Spec_Topic channel ->
     UnescapeString (Purpose_Value existingChannel)
       = Spec_Description channel ->
     exists r rest,
       trace_of (IsChannelUpdated channel w) =
         EvGetConversationInfo (Status_ID channel) false (Ok existingChannel)
         :: EvGetUsersInConversation (members_request (Status_ID channel)) r
         :: rest).
Proof.
  intros channel w existingChannel w1 H.
  split; [ | split; [ | split ] ].
  - intros Hn. apply IsChannelUpdated_run_mismatch; auto.
  - intros Ht. apply IsChannelUpdated_run_mismatch; auto.
  - intros Hd. apply IsChannelUpdated_run_mismatch; auto.
  - intros Hn Ht Hd.
    rewrite (IsChannelUpdated_run_match _ _ _ _ H Hn Ht Hd).
    cbn [trace_of snd].
    unfold membership_drift.
    destruct (GetUsersInConversation api
                (members_request (Status_ID channel)) w1) as [r w2] eqn:E.
    rewrite (bind_run _ _ _ _ _ _ (GetUsersInChannel_run _ _ _ _ E)).
    cbn [trace_of snd app]. eexists _, _. reflexivity.
Qed.

(** C7.  In IsChannelUpdated a failed member-list fetch, user-by-email
    lookup or user-info fetch ends the check: it is the last remote call
    made, and the function returns (false, err) with the error of that
    call, so the caller gets the error and no verdict. *)
Theorem IsChannelUpdated_lookup_failure_aborts :
  forall channel w pre ev post err,
    trace_of (IsChannelUpdated channel w) = pre ++ ev :: post ->
    is_membership_lookup ev = true ->
    event_error ev = Some err ->
    post = [] /\ value_of (IsChannelUpdated channel w) = (false, Some err).
Proof.
  intros channel w pre ev post err Heq _ Herr.
  destruct (IsChannelUpdated_stops channel w) as [Hs Hb].
  destruct (stops_failed_call_is_last _ _ _ _ _ _ Hs Heq Herr) as [-> Hv].
  split; [ reflexivity | ].
  specialize (Hb err Hv).
  destruct (value_of (IsChannelUpdated channel w)) as [b failure].
  cbn [fst snd] in Hb, Hv. congruence.
Qed.

(** C4.  Bots are left alone.  In RemoveUsers every kick directly follows
    the user-info reply it acts on, and that reply describes a user who
    is not a bot (and whose email is not desired); a member whose reply
    says IsBot is skipped by the removal loop and by the removed-member
    check without any further call on its behalf, whatever the desired
    emails are; and when IsChannelUpdated reports drift right after a
    user-info reply, that reply describes a user who is not a bot. *)
Theorem bots_are_never_removed :
  forall channelID userEmails w,
    (forall pre c kicked r post,
        trace_of (RemoveUsers channelID userEmails w)
          = pre ++ EvKickUserFromConversation c kicked r :: post ->
        exists pre' userId user,
          pre = pre' ++ [EvGetUserInfo userId (Ok user)] /\
          IsBot user = false /\
          email_found userEmails (Profile_Email user) = false /\
          kicked = User_ID user) /\
    (forall userId rest user w1,
        GetUserInfo api userId w = (Ok user, w1) ->
        IsBot user = true ->
        RemoveUsers_loop channelID userEmails (userId :: rest) w =
          (value_of (RemoveUsers_loop channelID userEmails rest w1),
           world_of (RemoveUsers_loop channelID userEmails rest w1),
           EvGetUserInfo userId (Ok user)
           :: trace_of (RemoveUsers_loop channelID userEmails rest w1)) /\
        removed_loop userEmails (userId :: rest) w =
          (value_of (removed_loop userEmails rest w1),
           world_of (removed_loop userEmails rest w1),
           EvGetUserInfo userId (Ok user)
           :: trace_of (removed_loop userEmails rest w1))) /\
    (forall channel pre userId user,
        value_of (IsChannelUpdated channel w) = (true, None) ->
        trace_of (IsChannelUpdated channel w)
          = pre ++ [EvGetUserInfo userId (Ok user)] ->
        IsBot user = false /\
        email_found (Spec_Users channel) (Profile_Email user) = false).
Proof.
  intros channelID userEmails w. split; [ | split ].
  - intros pre c kicked r post Heq.
    destruct (GetUsersInConversation api (members_request channelID) w)
      as [[[userIDs cursor] | err] w1] eqn:E.
    + rewrite (RemoveUsers_run_listed _ _ _ _ _ _ E) in Heq.
      cbn [trace_of snd] in Heq.
      destruct pre as [ | p pre]; [ discriminate | ].
      injection Heq as <- Heq.
      destruct (RemoveUsers_loop_kick_justified _ _ _ _ _ _ _ _ _ Heq)
        as (pre' & u & user & -> & Hbot & Hfound & Hid & _).
      exists (EvGetUsersInConversation (members_request channelID)
                (Ok (userIDs, cursor)) :: pre'), u, user.
      repeat split; assumption.
    + rewrite (RemoveUsers_run_not_listed _ _ _ _ _ E) in Heq.
      cbn [trace_of snd] in Heq.
      destruct pre as [ | p pre]; [ discriminate | ].
      injection Heq as _ Heq. destruct pre; discriminate.
  - intros userId rest user w1 H Hbot. split.
    + cbn [RemoveUsers_loop]. unfold api_GetUserInfo.
      rewrite (bind_call _ _ _ _ _ _ H). rewrite Hbot. reflexivity.
    + cbn [removed_loop]. unfold api_GetUserInfo.
      rewrite (bind_call _ _ _ _ _ _ H). rewrite Hbot. reflexivity.
  - intros channel pre userId user Hv Heq.
    destruct (IsChannelUpdated_cases channel w)
      as [(err & w1 & Hrun) | [(c & w1 & Hrun) | (c & w1 & Hrun)]];
      rewrite Hrun in Hv, Heq; cbn [value_of trace_of fst snd] in Hv, Heq.
    + discriminate.
    + destruct pre as [ | p pre]; [ discriminate | ].
      injection Heq as _ Heq. destruct pre; discriminate.
    + destruct pre as [ | p pre]; [ discriminate | ].
      injection Heq as _ Heq.
      eapply membership_drift_reason; eassumption.
Qed.

(** ** Inviting members *)

Lemma already_satisfied_spec err :
  already_satisfied err = true <->
  err = "already_in_channel" \/ err = "cant_invite_self".
Proof.
  unfold already_satisfied. rewrite orb_true_iff, !String.eqb_eq.
  reflexivity.
Qed.

Lemma invite_error_nil t :
  flat_map invite_error t = [] <-> Forall invite_call_ok t.
Proof.
  induction t as [ | ev t IH]; simpl.
  - split; intros _; [ constructor | reflexivity ].
  - split.
    + intros H. apply app_eq_nil in H. destruct H as [Hev Ht].
      constructor; [ | apply IH; exact Ht ].
      destruct ev as [ | | | | | email r | | c us r | | ]; simpl; trivial.
      * destruct r as [user | err]; [ exists user; reflexivity | ].
        discriminate.
      * destruct r as [ch | err]; [ exact I | ].
        simpl in Hev. apply already_satisfied_spec.
        destruct (already_satisfied err); [ reflexivity | discriminate ].
    + intros H. inversion H as [ | ? ? Hev Ht]; subst.
      apply IH in Ht. rewrite Ht, app_nil_r.
      destruct ev as [ | | | | | email r | | c us r | | ]; simpl; trivial.
      * destruct Hev as [user ->]. reflexivity.
      * destruct r as [ch | err]; [ reflexivity | ].
        simpl in Hev. apply already_satisfied_spec in Hev.
        rewrite Hev. reflexivity.
Qed.

Lemma InviteUsers_loop_spec channelID userEmails :
  forall errorlist w,
    invite_trace channelID userEmails
      (trace_of (InviteUsers_loop channelID userEmails errorlist w)) /\
    value_of (InviteUsers_loop channelID userEmails errorlist w)
      = errorlist
        ++ flat_map invite_error
             (trace_of (InviteUsers_loop channelID userEmails errorlist w)).
Proof.
  induction userEmails as [ | email rest IH]; intros errorlist w;
    cbn [InviteUsers_loop].
  - split; [ constructor | ]. cbn. rewrite app_nil_r. reflexivity.
  - unfold api_GetUserByEmail. step E. destruct r as [user | err].
    + unfold api_InviteUsersToConversation. step E'.
      cbn [flat_map invite_error app].
      destruct r as [ch | err].
      * destruct (IH errorlist w1) as [Ht Hv].
        split; [ constructor; exact Ht | exact Hv ].
      * unfold already_satisfied.
        destruct (String.eqb err "already_in_channel");
          [ destruct (IH errorlist w1) as [Ht Hv];
            split; [ constructor; exact Ht | exact Hv ] | ].
        destruct (String.eqb err "cant_invite_self");
          [ destruct (IH errorlist w1) as [Ht Hv];
            split; [ constructor; exact Ht | exact Hv ] | ].
        cbn [negb andb orb app].
        destruct (IH (errorlist ++ [err]) w1) as [Ht Hv].
        split; [ constructor; exact Ht | ].
        rewrite Hv. rewrite <- app_assoc. reflexivity.
    + cbn [flat_map invite_error app].
      destruct (IH (errorlist
                      ++ [Errorf ("Error fetching user by Email " ++ email)%string])
                   w0) as [Ht Hv].
      split; [ constructor; exact Ht | ].
      rewrite Hv. rewrite <- app_assoc. reflexivity.
Qed.

(** C2.  InviteUsers is best-effort.  For every list of emails it looks up
    every email, in order, and invites every user it finds, whatever the
    earlier replies were.  The list it returns holds, in call order, one
    "Error fetching user by Email" entry per failed lookup and the error
    of every failed invite other than "already_in_channel" and
    "cant_invite_self"; so it is empty exactly when every lookup succeeded
    and every invite succeeded or returned one of these two errors.  In
    particular, for emails [a; b; c] where the lookup of b fails and the
    invite for c returns "already_in_channel", all five calls are made and
    the returned list is the single entry for b. *)
Theorem InviteUsers_best_effort :
  forall channelID,
    (forall userEmails w,
        invite_trace channelID userEmails
          (trace_of (InviteUsers channelID userEmails w)) /\
        value_of (InviteUsers channelID userEmails w)
          = flat_map invite_error
              (trace_of (InviteUsers channelID userEmails w)) /\
        (value_of (InviteUsers channelID userEmails w) = [] <->
         Forall invite_call_ok
                (trace_of (InviteUsers channelID userEmails w)))) /\
    (forall a b c w ua w1 ra w2 err w3 uc w4 w5,
        GetUserByEmail api a w = (Ok ua, w1) ->
        InviteUsersToConversation api channelID [User_ID ua] w1
          = (Ok ra, w2) ->
        GetUserByEmail api b w2 = (Err err, w3) ->
        GetUserByEmail api c w3 = (Ok uc, w4) ->
        InviteUsersToConversation api channelID [User_ID uc] w4
          = (Err "already_in_channel", w5) ->
        InviteUsers channelID [a; b; c] w =
          ([Errorf ("Error fetching user by Email " ++ b)%string], w5,
           [EvGetUserByEmail a (Ok ua);
            EvInviteUsersToConversation channelID [User_ID ua] (Ok ra);
            EvGetUserByEmail b (Err err);
            EvGetUserByEmail c (Ok uc);
            EvInviteUsersToConversation channelID [User_ID uc]
              (Err "already_in_channel")])).
Proof.
  intros channelID. split.
  - intros userEmails w.
    destruct (InviteUsers_loop_spec channelID userEmails [] w) as [Ht Hv].
    fold (InviteUsers channelID userEmails) in Ht, Hv. simpl in Hv.
    split; [ exact Ht | ]. split; [ exact Hv | ].
    rewrite Hv. apply invite_error_nil.
  - intros a b c w ua w1 ra w2 err w3 uc w4 w5 Ha Hia Hb Hc Hic.
    unfold InviteUsers. cbn [InviteUsers_loop].
    unfold api_GetUserByEmail, api_InviteUsersToConversation.
    rewrite (bind_call _ _ _ _ _ _ Ha).
    rewrite (bind_call _ _ _ _ _ _ Hia).
    rewrite (bind_call _ _ _ _ _ _ Hb).
    rewrite (bind_call _ _ _ _ _ _ Hc).
    rewrite (bind_call _ _ _ _ _ _ Hic).
    reflexivity.
Qed.

(** ** Finding a channel by name *)

Lemma scan_channels_app l1 l2 name :
  scan_channels (l1 ++ l2) name =
    match scan_channels l1 name with
    | Some channel => Some channel
    | None => scan_channels l2 name
    end.
Proof.
  induction l1 as [ | c l1 IH]; simpl; [ reflexivity | ].
  destruct (String.eqb (Name c) name); [ reflexivity | exact IH ].
Qed.

Lemma scan_channels_none l name :
  Forall (fun c => Name c <> name) l <-> scan_channels l name = None.
Proof.
  induction l as [ | c l IH]; simpl.
  - split; intros _; [ reflexivity | constructor ].
  - destruct (String.eqb_spec (Name c) name) as [Heq | Hne]; split.
    + intros H. inversion H; subst. contradiction.
    + discriminate.
    + intros H. inversion H; subst. apply IH. assumption.
    + intros H. constructor; [ exact Hne | apply IH; exact H ].
Qed.

Lemma scan_channels_first l name before channel after :
  l = before ++ channel :: after ->
  Name channel = name ->
  Forall (fun c => Name c <> name) before ->
  scan_channels l name = Some channel.
Proof.
  intros -> Hname Hbefore. rewrite scan_channels_app.
  apply scan_channels_none in Hbefore. rewrite Hbefore. simpl.
  rewrite Hname, String.eqb_refl. reflexivity.
Qed.

Lemma scan_channels_In l name channel :
  scan_channels l name = Some channel -> In channel l.
Proof.
  induction l as [ | c l IH]; simpl; [ discriminate | ].
  destruct (String.eqb (Name c) name).
  - intros H. injection H as ->. left. reflexivity.
  - intros H. right. apply IH. exact H.
Qed.

Lemma GetChannelByName_loop_step fuel name cursor w channels nextCursor w1 :
  GetConversations api (channels_request cursor) w
    = (Ok (channels, nextCursor), w1) ->
  GetChannelByName_loop (S fuel) name cursor w =
    match scan_channels channels name with
    | Some channel =>
        (Some (Ok channel), w1,
         [EvGetConversations (channels_request cursor)
                             (Ok (channels, nextCursor))])
    | None =>
        if String.eqb nextCursor ""
        then (Some (Err (Errorf ChannelAlreadyExistsError)), w1,
              [EvGetConversations (channels_request cursor)
                                  (Ok (channels, nextCursor))])
        else (value_of (GetChannelByName_loop fuel name nextCursor w1),
              world_of (GetChannelByName_loop fuel name nextCursor w1),
              EvGetConversations (channels_request cursor)
                                 (Ok (channels, nextCursor))
              :: trace_of (GetChannelByName_loop fuel name nextCursor w1))
    end.
Proof.
  intros H. cbn [GetChannelByName_loop]. unfold api_GetConversations.
  fold (channels_request cursor).
  rewrite (bind_call _ _ _ _ _ _ H).
  destruct (scan_channels channels name); [ reflexivity | ].
  destruct (String.eqb nextCursor ""); reflexivity.
Qed.

Lemma GetChannelByName_loop_not_found name w cursor pages w' :
  serves w cursor pages w' ->
  scan_channels (all_channels pages) name = None ->
  forall fuel,
    length pages <= fuel ->
    GetChannelByName_loop fuel name cursor w =
      (Some (Err (Errorf ChannelAlreadyExistsError)), w', map page_event pages).
Proof.
  intros Hserves. induction Hserves as
    [w cursor channels w1 Hget
    | w cursor channels next w1 rest w2 Hget Hnext Hrest IH];
    intros Hscan fuel Hfuel;
    (destruct fuel as [ | fuel]; [ simpl in Hfuel; lia | ]);
    rewrite (GetChannelByName_loop_step _ _ _ _ _ _ _ Hget);
    unfold all_channels in Hscan; cbn [flat_map page_channels] in Hscan;
    rewrite scan_channels_app in Hscan;
    destruct (scan_channels channels name); try discriminate.
  - reflexivity.
  - apply String.eqb_neq in Hnext. rewrite Hnext.
    rewrite (IH Hscan fuel) by (simpl in Hfuel; lia). reflexivity.
Qed.

Lemma GetChannelByName_loop_found name channel w cursor pages w' :
  serves w cursor pages w' ->
  scan_channels (all_channels pages) name = Some channel ->
  forall fuel,
    length pages <= fuel ->
    value_of (GetChannelByName_loop fuel name cursor w) = Some (Ok channel) /\
    exists visited p skipped,
      pages = visited ++ p :: skipped /\
      Forall (fun c => Name c <> name) (all_channels visited) /\
      In channel (page_channels p) /\
      trace_of (GetChannelByName_loop fuel name cursor w)
        = map page_event (visited ++ [p]).
Proof.
  intros Hserves. induction Hserves as
    [w cursor channels w1 Hget
    | w cursor channels next w1 rest w2 Hget Hnext Hrest IH];
    intros Hscan fuel Hfuel;
    (destruct fuel as [ | fuel]; [ simpl in Hfuel; lia | ]);
    rewrite (GetChannelByName_loop_step _ _ _ _ _ _ _ Hget);
    unfold all_channels in Hscan; cbn [flat_map page_channels] in Hscan;
    rewrite scan_channels_app in Hscan;
    destruct (scan_channels channels name) as [found | ] eqn:Hpage.
  - injection Hscan as ->. split; [ reflexivity | ].
    exists [], (mkPage cursor channels ""), [].
    split; [ reflexivity | ]. split; [ exact (Forall_nil _) | ].
    split; [ | reflexivity ].
    eapply scan_channels_In. exact Hpage.
  - discriminate.
  - injection Hscan as ->. split; [ reflexivity | ].
    exists [], (mkPage cursor channels next), rest.
    split; [ reflexivity | ]. split; [ exact (Forall_nil _) | ].
    split; [ | reflexivity ].
    eapply scan_channels_In. exact Hpage.
  - apply String.eqb_neq in Hnext. rewrite Hnext.
    cbn [value_of trace_of fst snd].
    destruct (IH Hscan fuel) as (Hv & visited & p & skipped & -> & Hb & Hin & Ht);
      [ simpl in Hfuel; lia | ].
    split; [ exact Hv | ].
    exists (mkPage cursor channels next :: visited), p, skipped.
    split; [ reflexivity | ]. split; [ | split; [ exact Hin | ] ].
    + unfold all_channels. cbn [flat_map page_channels].
      apply Forall_app. split; [ | exact Hb ].
      apply scan_channels_none. exact Hpage.
    + rewrite Ht. reflexivity.
Qed.

Lemma requested_cursors_page cursor r t :
  requested_cursors (EvGetConversations (channels_request cursor) r :: t)
    = cursor :: requested_cursors t.
Proof. reflexivity. Qed.

Lemma GetChannelByName_loop_cursors name :
  forall fuel cursor w,
    requested_cursors (trace_of (GetChannelByName_loop fuel name cursor w)) = []
    \/
    exists later,
      requested_cursors (trace_of (GetChannelByName_loop fuel name cursor w))
        = cursor :: later /\
      Forall (fun c => c <> "") later.
Proof.
  induction fuel as [ | fuel IH]; intros cursor w.
  - left. reflexivity.
  - right. cbn [GetChannelByName_loop]. unfold api_GetConversations.
    fold (channels_request cursor).
    step E. rewrite requested_cursors_page.
    destruct r as [[channels nextCursor] | err];
      [ | exists []; split; [ reflexivity | constructor ] ].
    destruct (scan_channels channels name);
      [ exists []; split; [ reflexivity | constructor ] | ].
    destruct (String.eqb_spec nextCursor "") as [Hend | Hmore];
      [ exists []; split; [ reflexivity | constructor ] | ].
    destruct (IH nextCursor w0) as [Hnil | (later & Heq & Hlater)].
    + rewrite Hnil. exists []. split; [ reflexivity | constructor ].
    + rewrite Heq. exists (nextCursor :: later).
      split; [ reflexivity | constructor; assumption ].
Qed.

(** C5.  GetChannelByName follows the cursors.  Its first page request
    carries the empty cursor and no later request does, so the empty
    cursor that ends the collection is never sent back.  When the
    platform serves a finite chain of pages, and the loop is allowed at
    least as many requests as there are pages: if no channel of any page
    has the requested name, every page is requested exactly once, in
    order, and the error made from ChannelAlreadyExistsError is returned
    after the last page; if some channel has the requested name, the
    first such channel in page order is returned, after requesting, once
    each and in order, the pages up to the one that holds it. *)
Theorem GetChannelByName_visits_pages_in_order :
  forall name,
    (forall fuel w,
        requested_cursors (trace_of (GetChannelByName fuel name w)) = [] \/
        exists later,
          requested_cursors (trace_of (GetChannelByName fuel name w))
            = "" :: later /\
          Forall (fun c => c <> "") later) /\
    (forall w pages w' fuel,
        serves w "" pages w' ->
        length pages <= fuel ->
        (Forall (fun c => Name c <> name) (all_channels pages) ->
         GetChannelByName fuel name w =
           (Some (Err (Errorf ChannelAlreadyExistsError)), w',
            map page_event pages)) /\
        (forall before channel after,
            all_channels pages = before ++ channel :: after ->
            Name channel = name ->
            Forall (fun c => Name c <> name) before ->
            value_of (GetChannelByName fuel name w) = Some (Ok channel) /\
            exists visited p skipped,
              pages = visited ++ p :: skipped /\
              Forall (fun c => Name c <> name) (all_channels visited) /\
              In channel (page_channels p) /\
              trace_of (GetChannelByName fuel name w)
                = map page_event (visited ++ [p]))).
Proof.
  intros name. split.
  - intros fuel w. apply GetChannelByName_loop_cursors.
  - intros w pages w' fuel Hserves Hfuel. split.
    + intros Hnone. apply scan_channels_none in Hnone.
      eapply GetChannelByName_loop_not_found; eassumption.
    + intros before channel after Hall Hname Hbefore.
      eapply GetChannelByName_loop_found; try eassumption.
      eapply scan_channels_first; eassumption.
Qed.

(** ** Further properties: fetching and the attribute setters *)

(** X1.  A failed channel fetch ends GetChannel, the three setters and
    IsChannelUpdated at once: the fetch is the only remote call and its
    error is what the method returns (with verdict false for
    IsChannelUpdated). *)
Theorem fetch_error_is_returned :
  forall channelID w err w1,
    GetConversationInfo api channelID false w = (Err err, w1) ->
    GetChannel channelID w
      = (Err err, w1, [EvGetConversationInfo channelID false (Err err)]) /\
    (forall value,
        SetTopic channelID value w
          = (Err err, w1, [EvGetConversationInfo channelID false (Err err)]) /\
        SetDescription channelID value w
          = (Err err, w1, [EvGetConversationInfo channelID false (Err err)]) /\
        RenameChannel channelID value w
          = (Err err, w1, [EvGetConversationInfo channelID false (Err err)]))
    /\
    (forall channel,
        Status_ID channel = channelID ->
        IsChannelUpdated channel w
          = ((false, Some err), w1,
             [EvGetConversationInfo channelID false (Err err)])).
Proof.
  intros channelID w err w1 H. split; [ | split ].
  - unfold GetChannel, api_GetConversationInfo.
    rewrite (bind_call _ _ _ _ _ _ H). reflexivity.
  - intros value.
    unfold SetTopic, SetDescription, RenameChannel, api_GetConversationInfo.
    rewrite !(bind_call _ _ _ _ _ _ H). repeat split.
  - intros channel <-. apply IsChannelUpdated_run_error. exact H.
Qed.

Ltac setter_mismatch H Hne Hw :=
  unfold SetTopic, SetDescription, RenameChannel, api_GetConversationInfo,
    api_SetTopicOfConversation, api_SetPurposeOfConversation,
    api_RenameConversation;
  rewrite (bind_call _ _ _ _ _ _ H);
  apply String.eqb_neq in Hne; rewrite Hne;
  rewrite (bind_call _ _ _ _ _ _ Hw);
  match goal with
  | r : result Channel |- _ => destruct r; reflexivity
  end.

(** X2.  When the fetched value, unescaped, differs from the requested
    one, a setter makes exactly one write, for the given channel and with
    the requested value, and returns whatever that write returned: the
    updated channel, or the write's error. *)
Theorem setters_return_the_write_reply :
  forall channelID value w channel w1 r w2,
    GetConversationInfo api channelID false w = (Ok channel, w1) ->
    (UnescapeString (Topic_Value channel) <> value ->
     SetTopicOfConversation api channelID value w1 = (r, w2) ->
     SetTopic channelID value w =
       (r, w2,
        [EvGetConversationInfo channelID false (Ok channel);
         EvSetTopicOfConversation channelID value r])) /\
    (UnescapeString (Purpose_Value channel) <> value ->
     SetPurposeOfConversation api channelID value w1 = (r, w2) ->
     SetDescription channelID value w =
       (r, w2,
        [EvGetConversationInfo channelID false (Ok channel);
         EvSetPurposeOfConversation channelID value r])) /\
    (UnescapeString (Name channel) <> value ->
     RenameConversation api channelID value w1 = (r, w2) ->
     RenameChannel channelID value w =
       (r, w2,
        [EvGetConversationInfo channelID false (Ok channel);
         EvRenameConversation channelID value r])).
Proof.
  intros channelID value w channel w1 r w2 H. split; [ | split ];
    intros Hne Hw; setter_mismatch H Hne Hw.
Qed.

Ltac setter_confined :=
  unfold SetTopic, SetDescription, RenameChannel, api_GetConversationInfo,
    api_SetTopicOfConversation, api_SetPurposeOfConversation,
    api_RenameConversation;
  let E := fresh "E" in
  let E' := fresh "E" in
  step E;
  match goal with
  | r : result Channel |- _ => destruct r as [channel | err]
  end;
  [ match goal with
    | |- context [String.eqb ?a ?b] => destruct (String.eqb a b)
    end;
    [ | step E';
        match goal with
        | |- context [match ?r' with Ok _ => _ | Err _ => _ end] =>
            destruct r'
        end ]
  | ];
  repeat (constructor; eauto).

(** X3.  A setter stays within its own attribute and channel: every call
    SetTopic makes is either the fetch of the given channel or a topic
    write for it with the requested value, and likewise SetDescription
    only writes the purpose and RenameChannel only renames. *)
Theorem setters_touch_only_their_attribute :
  forall channelID value w,
    Forall (fun ev =>
              (exists r, ev = EvGetConversationInfo channelID false r) \/
              (exists r, ev = EvSetTopicOfConversation channelID value r))
           (trace_of (SetTopic channelID value w)) /\
    Forall (fun ev =>
              (exists r, ev = EvGetConversationInfo channelID false r) \/
              (exists r, ev = EvSetPurposeOfConversation channelID value r))
           (trace_of (SetDescription channelID value w)) /\
    Forall (fun ev =>
              (exists r, ev = EvGetConversationInfo channelID false r) \/
              (exists r, ev = EvRenameConversation channelID value r))
           (trace_of (RenameChannel channelID value w)).
Proof.
  intros channelID value w. split; [ | split ]; setter_confined.
Qed.

(** ** Further properties: inviting members *)

Lemma InviteUsers_loop_frame channelID userEmails :
  forall errorlist1 errorlist2 w,
    world_of (InviteUsers_loop channelID userEmails errorlist1 w)
      = world_of (InviteUsers_loop channelID userEmails errorlist2 w) /\
    trace_of (InviteUsers_loop channelID userEmails errorlist1 w)
      = trace_of (InviteUsers_loop channelID userEmails errorlist2 w).
Proof.
  induction userEmails as [ | email rest IH]; intros errorlist1 errorlist2 w;
    cbn [InviteUsers_loop]; [ split; reflexivity | ].
  unfold api_GetUserByEmail, api_InviteUsersToConversation.
  destruct (GetUserByEmail api email w) as [r w0] eqn:E.
  rewrite !(bind_call _ _ _ _ _ _ E). cbn [world_of trace_of fst snd].
  destruct r as [user | err].
  - destruct (InviteUsersToConversation api channelID [User_ID user] w0)
      as [r w1] eqn:E'.
    rewrite !(bind_call _ _ _ _ _ _ E'). cbn [world_of trace_of fst snd].
    destruct r as [ch | err];
      [ | destruct (negb (String.eqb err "already_in_channel")
                    && negb (String.eqb err "cant_invite_self")) ];
      match goal with
      | |- world_of (InviteUsers_loop _ _ ?a1 ?w') = _ /\
           _ :: _ :: trace_of (InviteUsers_loop _ _ _ _)
             = _ :: _ :: trace_of (InviteUsers_loop _ _ ?a2 _) =>
          destruct (IH a1 a2 w') as [Hw Ht]; rewrite Hw, Ht;
          split; reflexivity
      end.
  - match goal with
    | |- world_of (InviteUsers_loop _ _ ?a1 ?w') = _ /\
         _ :: trace_of (InviteUsers_loop _ _ _ _)
           = _ :: trace_of (InviteUsers_loop _ _ ?a2 _) =>
        destruct (IH a1 a2 w') as [Hw Ht]; rewrite Hw, Ht;
        split; reflexivity
    end.
Qed.

Lemma InviteUsers_loop_accumulates channelID userEmails errorlist w :
  InviteUsers_loop channelID userEmails errorlist w =
    (errorlist ++ value_of (InviteUsers channelID userEmails w),
     world_of (InviteUsers channelID userEmails w),
     trace_of (InviteUsers channelID userEmails w)).
Proof.
  unfold InviteUsers.
  destruct (InviteUsers_loop_frame channelID userEmails errorlist [] w)
    as [Hw Ht].
  destruct (InviteUsers_loop_spec channelID userEmails errorlist w)
    as [_ Hv].
  destruct (InviteUsers_loop_spec channelID userEmails [] w) as [_ Hv0].
  cbn [app] in Hv0. rewrite Hv0, <- Ht, <- Hw, <- Hv.
  destruct (InviteUsers_loop channelID userEmails errorlist w) as [[v w'] t].
  reflexivity.
Qed.

Lemma InviteUsers_loop_app channelID l2 :
  forall l1 errorlist w,
    InviteUsers_loop channelID (l1 ++ l2) errorlist w =
      (value_of
         (InviteUsers_loop channelID l2
            (value_of (InviteUsers_loop channelID l1 errorlist w))
            (world_of (InviteUsers_loop channelID l1 errorlist w))),
       world_of
         (InviteUsers_loop channelID l2
            (value_of (InviteUsers_loop channelID l1 errorlist w))
            (world_of (InviteUsers_loop channelID l1 errorlist w))),
       trace_of (InviteUsers_loop channelID l1 errorlist w)
       ++ trace_of
            (InviteUsers_loop channelID l2
               (value_of (InviteUsers_loop channelID l1 errorlist w))
               (world_of (InviteUsers_loop channelID l1 errorlist w)))).
Proof.
  induction l1 as [ | email rest IH]; intros errorlist w;
    cbn [app InviteUsers_loop].
  - cbn [ret value_of world_of trace_of fst snd app].
    destruct (InviteUsers_loop channelID l2 errorlist w) as [[v w'] t].
    reflexivity.
  - unfold api_GetUserByEmail, api_InviteUsersToConversation.
    destruct (GetUserByEmail api email w) as [r w0] eqn:E.
    rewrite !(bind_call _ _ _ _ _ _ E).
    cbn [value_of world_of trace_of fst snd app].
    destruct r as [user | err].
    + destruct (InviteUsersToConversation api channelID [User_ID user] w0)
        as [r w1] eqn:E'.
      rewrite !(bind_call _ _ _ _ _ _ E').
      cbn [value_of world_of trace_of fst snd app].
      destruct r as [ch | err];
        [ | destruct (negb (String.eqb err "already_in_channel")
                      && negb (String.eqb err "cant_invite_self")) ];
        rewrite IH; reflexivity.
    + rewrite IH. reflexivity.
Qed.

(** X4.  Inviting a list in two batches is the same as inviting it in one
    go: InviteUsers on [l1 ++ l2] makes the calls of InviteUsers on [l1]
    followed by those of InviteUsers on [l2] (run on the world the first
    batch left) and returns the two error lists one after the other. *)
Theorem InviteUsers_app :
  forall channelID l1 l2 w,
    InviteUsers channelID (l1 ++ l2) w =
      (value_of (InviteUsers channelID l1 w)
       ++ value_of (InviteUsers channelID l2
                      (world_of (InviteUsers channelID l1 w))),
       world_of (InviteUsers channelID l2
                   (world_of (InviteUsers channelID l1 w))),
       trace_of (InviteUsers channelID l1 w)
       ++ trace_of (InviteUsers channelID l2
                      (world_of (InviteUsers channelID l1 w)))).
Proof.
  intros channelID l1 l2 w. unfold InviteUsers at 1.
  rewrite InviteUsers_loop_app.
  fold (InviteUsers channelID l1).
  rewrite (InviteUsers_loop_accumulates channelID l2).
  reflexivity.
Qed.

Lemma invite_trace_counts channelID userEmails t :
  invite_trace channelID userEmails t ->
  length (flat_map invite_error t) <= length userEmails /\
  length userEmails <= length t /\
  length t <= 2 * length userEmails.
Proof.
  intros H. induction H as [ | email rest err t _ IH | email rest user r t _ IH];
    cbn [flat_map invite_error app length].
  - lia.
  - lia.
  - rewrite length_app.
    assert (length (match r with
                    | Ok _ => []
                    | Err err => if already_satisfied err then [] else [err]
                    end) <= 1)
      by (destruct r as [ch | err];
          [ | destruct (already_satisfied err) ]; simpl; lia).
    lia.
Qed.

(** X5.  InviteUsers reports at most one error per email, and makes at
    least one and at most two remote calls per email. *)
Theorem InviteUsers_counts :
  forall channelID userEmails w,
    length (value_of (InviteUsers channelID userEmails w))
      <= length userEmails /\
    length userEmails
      <= length (trace_of (InviteUsers channelID userEmails w)) /\
    length (trace_of (InviteUsers channelID userEmails w))
      <= 2 * length userEmails.
Proof.
  intros channelID userEmails w.
  destruct (InviteUsers_loop_spec channelID userEmails [] w) as [Ht Hv].
  fold (InviteUsers channelID userEmails) in Ht, Hv. cbn [app] in Hv.
  rewrite Hv. eapply invite_trace_counts. exact Ht.
Qed.

(** ** Further properties: removing members *)

Lemma email_found_In userEmails email :
  email_found userEmails email = true <-> In email userEmails.
Proof.
  induction userEmails as [ | e rest IH]; simpl.
  - split; [ discriminate | intros [] ].
  - destruct (String.eqb_spec e email) as [Heq | Hne].
    + split; [ intros _; left; exact Heq | reflexivity ].
    + rewrite IH. split; [ intros H; right; exact H | ].
      intros [H | H]; [ contradiction | exact H ].
Qed.

Lemma email_found_same_set l1 l2 :
  (forall email, In email l1 <-> In email l2) ->
  forall email, email_found l1 email = email_found l2 email.
Proof.
  intros Hset email.
  destruct (email_found l1 email) eqn:H1, (email_found l2 email) eqn:H2;
    try reflexivity.
  - apply email_found_In, Hset, email_found_In in H1. congruence.
  - apply email_found_In, Hset, email_found_In in H2. congruence.
Qed.

Lemma RemoveUsers_loop_same_set channelID l1 l2 channelUserIDs :
  (forall email, email_found l1 email = email_found l2 email) ->
  forall w,
    RemoveUsers_loop channelID l1 channelUserIDs w
      = RemoveUsers_loop channelID l2 channelUserIDs w.
Proof.
  intros Hsame. induction channelUserIDs as [ | userId rest IH]; intros w;
    cbn [RemoveUsers_loop]; [ reflexivity | ].
  unfold api_GetUserInfo, api_KickUserFromConversation.
  destruct (GetUserInfo api userId w) as [r w0] eqn:E.
  rewrite !(bind_call _ _ _ _ _ _ E).
  destruct r as [user | err]; [ | reflexivity ].
  rewrite Hsame.
  destruct (IsBot user); cbn [negb]; [ rewrite IH; reflexivity | ].
  destruct (email_found l2 (Profile_Email user)); cbn [negb];
    [ rewrite IH; reflexivity | ].
  destruct (KickUserFromConversation api channelID (User_ID user) w0)
    as [e w1] eqn:E'.
  rewrite !(bind_call _ _ _ _ _ _ E').
  destruct e as [err | ]; [ reflexivity | rewrite IH; reflexivity ].
Qed.

(** X6.  RemoveUsers treats the desired emails as a set: two lists with
    the same elements, in any order and with any repetitions, give the
    same calls, the same final world and the same result. *)
Theorem RemoveUsers_desired_emails_as_set :
  forall channelID l1 l2 w,
    (forall email, In email l1 <-> In email l2) ->
    RemoveUsers channelID l1 w = RemoveUsers channelID l2 w.
Proof.
  intros channelID l1 l2 w Hset. unfold RemoveUsers, bind.
  destruct (GetUsersInChannel channelID w) as [[r w1] t].
  destruct r as [channelUserIDs | err]; [ | reflexivity ].
  rewrite (RemoveUsers_loop_same_set channelID l1 l2 channelUserIDs
             (email_found_same_set l1 l2 Hset)).
  reflexivity.
Qed.

Lemma kick_attempts_info userId r t :
  kick_attempts (EvGetUserInfo userId r :: t) = kick_attempts t.
Proof. reflexivity. Qed.

Lemma info_requests_info userId r t :
  info_requests (EvGetUserInfo userId r :: t) = userId :: info_requests t.
Proof. reflexivity. Qed.

Lemma profiles_info userId r t :
  profiles (EvGetUserInfo userId r :: t)
    = match r with
      | Ok user => user :: profiles t
      | Err _ => profiles t
      end.
Proof. destruct r; reflexivity. Qed.

Lemma kick_attempts_kick channelID user r t :
  kick_attempts (EvKickUserFromConversation channelID user r :: t)
    = (channelID, user) :: kick_attempts t.
Proof. reflexivity. Qed.

Lemma info_requests_kick channelID user r t :
  info_requests (EvKickUserFromConversation channelID user r :: t)
    = info_requests t.
Proof. reflexivity. Qed.

Lemma profiles_kick channelID user r t :
  profiles (EvKickUserFromConversation channelID user r :: t) = profiles t.
Proof. reflexivity. Qed.

Lemma RemoveUsers_loop_kicks channelID userEmails channelUserIDs :
  forall w,
    kick_attempts
      (trace_of (RemoveUsers_loop channelID userEmails channelUserIDs w))
      = map (fun user => (channelID, User_ID user))
            (filter (to_remove userEmails)
               (profiles
                  (trace_of
                     (RemoveUsers_loop channelID userEmails channelUserIDs w))))
    /\
    Forall (fun ev =>
              is_read ev = true \/
              exists user r, ev = EvKickUserFromConversation channelID user r)
           (trace_of (RemoveUsers_loop channelID userEmails channelUserIDs w))
    /\
    (value_of (RemoveUsers_loop channelID userEmails channelUserIDs w) = None ->
     info_requests
       (trace_of (RemoveUsers_loop channelID userEmails channelUserIDs w))
       = channelUserIDs).
Proof.
  induction channelUserIDs as [ | userId rest IH]; intros w;
    cbn [RemoveUsers_loop].
  - repeat split. constructor.
  - unfold api_GetUserInfo, api_KickUserFromConversation. step E.
    rewrite kick_attempts_info, info_requests_info, profiles_info.
    destruct r as [user | err].
    + cbn [filter].
      destruct (IsBot user) eqn:Hbot; cbn [negb].
      * assert (Hrm : to_remove userEmails user = false)
          by (unfold to_remove; rewrite Hbot; reflexivity).
        rewrite Hrm. destruct (IH w0) as (Hk & Hf & Hi).
        split; [ exact Hk | ].
        split; [ constructor; [ left; reflexivity | exact Hf ] | ].
        intros Hv. rewrite (Hi Hv). reflexivity.
      * destruct (email_found userEmails (Profile_Email user)) eqn:Hfound;
          cbn [negb].
        { assert (Hrm : to_remove userEmails user = false)
            by (unfold to_remove; rewrite Hbot, Hfound; reflexivity).
          rewrite Hrm. destruct (IH w0) as (Hk & Hf & Hi).
          split; [ exact Hk | ].
          split; [ constructor; [ left; reflexivity | exact Hf ] | ].
          intros Hv. rewrite (Hi Hv). reflexivity. }
        assert (Hrm : to_remove userEmails user = true)
          by (unfold to_remove; rewrite Hbot, Hfound; reflexivity).
        rewrite Hrm. step E'.
        rewrite kick_attempts_kick, info_requests_kick, profiles_kick.
        cbn [map].
        destruct r as [err | ].
        { split; [ reflexivity | ]. split; [ | discriminate ].
          constructor; [ left; reflexivity | ].
          constructor; [ right; eexists _, _; reflexivity | constructor ]. }
        destruct (IH w1) as (Hk & Hf & Hi).
        split; [ rewrite Hk; reflexivity | ].
        split.
        { constructor; [ left; reflexivity | ].
          constructor; [ right; eexists _, _; reflexivity | exact Hf ]. }
        intros Hv. rewrite (Hi Hv). reflexivity.
    + split; [ reflexivity | ]. split; [ | discriminate ].
      constructor; [ left; reflexivity | constructor ].
Qed.

(** X7.  What RemoveUsers does to the channel.  The kicks it attempts
    are, in order, exactly the users whose profile it received and found
    to be neither a bot nor desired, all in the given channel, and it
    makes no other call that is not a read.  When it returns nil after
    the platform listed the members, it has asked for the profile of
    every listed member, in listing order. *)
Theorem RemoveUsers_kicks_exactly_the_unwanted :
  forall channelID userEmails w,
    kick_attempts (trace_of (RemoveUsers channelID userEmails w))
      = map (fun user => (channelID, User_ID user))
            (filter (to_remove userEmails)
               (profiles (trace_of (RemoveUsers channelID userEmails w)))) /\
    Forall (fun ev =>
              is_read ev = true \/
              exists user r, ev = EvKickUserFromConversation channelID user r)
           (trace_of (RemoveUsers channelID userEmails w)) /\
    (forall channelUserIDs cursor w1,
        GetUsersInConversation api (members_request channelID) w
          = (Ok (channelUserIDs, cursor), w1) ->
        value_of (RemoveUsers channelID userEmails w) = None ->
        info_requests (trace_of (RemoveUsers channelID userEmails w))
          = channelUserIDs).
Proof.
  intros channelID userEmails w.
  destruct (GetUsersInConversation api (members_request channelID) w)
    as [[[userIDs cursor] | err] w1] eqn:E.
  - rewrite (RemoveUsers_run_listed _ _ _ _ _ _ E).
    cbn [value_of trace_of fst snd].
    destruct (RemoveUsers_loop_kicks channelID userEmails userIDs w1)
      as (Hk & Hf & Hi).
    split; [ exact Hk | ].
    split; [ constructor; [ left; reflexivity | exact Hf ] | ].
    intros ids c w' Heq Hv. injection Heq as <- _ _. apply Hi. exact Hv.
  - rewrite (RemoveUsers_run_not_listed _ _ _ _ _ E).
    cbn [value_of trace_of fst snd].
    split; [ reflexivity | ].
    split; [ constructor; [ left; reflexivity | constructor ] | ].
    intros ids c w' Heq. discriminate Heq.
Qed.

Lemma stops_none_iff t failure :
  stops_at_first_failure t failure ->
  (failure = None <-> Forall succeeded t).
Proof.
  intros Hs. destruct failure as [err | ]; simpl in Hs.
  - split; [ discriminate | ].
    destruct Hs as (t' & ev & -> & _ & Herr). intros H.
    apply Forall_app in H. destruct H as [_ H].
    inversion H as [ | ? ? Hev _]. unfold succeeded in Hev. congruence.
  - split; [ intros _; exact Hs | reflexivity ].
Qed.

(** X8.  RemoveUsers and IsChannelUpdated swallow no error: each returns
    a nil error exactly when every remote call it made succeeded. *)
Theorem no_error_iff_every_call_succeeded :
  forall channelID userEmails channel w,
    (value_of (RemoveUsers channelID userEmails w) = None <->
     Forall succeeded (trace_of (RemoveUsers channelID userEmails w))) /\
    (snd (value_of (IsChannelUpdated channel w)) = None <->
     Forall succeeded (trace_of (IsChannelUpdated channel w))).
Proof.
  intros channelID userEmails channel w. split.
  - apply stops_none_iff. apply RemoveUsers_stops.
  - apply stops_none_iff. apply IsChannelUpdated_stops.
Qed.

(** ** Further properties: drift detection *)

Lemma email_lookups_only t :
  Forall (fun ev => is_email_lookup ev = true) t ->
  info_requests t = [] /\
  (forall userEmails, Forall (member_wanted userEmails) t) /\
  Forall (fun ev => is_read ev = true) t.
Proof.
  induction 1 as [ | ev t Hev _ (Hi & Hw & Hr)].
  - repeat split; constructor.
  - destruct ev; try discriminate Hev. split; [ exact Hi | ].
    split; [ intros userEmails | ]; constructor;
      [ exact I | apply Hw | reflexivity | exact Hr ].
Qed.

Lemma user_infos_only t :
  Forall (fun ev => is_user_info ev = true) t ->
  email_lookups t = [] /\
  (forall channelUserIDs, Forall (member_present channelUserIDs) t) /\
  Forall (fun ev => is_read ev = true) t.
Proof.
  induction 1 as [ | ev t Hev _ (Hi & Hw & Hr)].
  - repeat split; constructor.
  - destruct ev; try discriminate Hev. split; [ exact Hi | ].
    split; [ intros channelUserIDs | ]; constructor;
      [ exact I | apply Hw | reflexivity | exact Hr ].
Qed.

Lemma added_loop_facts channelUserIDs userEmails :
  forall w,
    Forall (fun ev => is_email_lookup ev = true)
           (trace_of (added_loop channelUserIDs userEmails w)) /\
    (value_of (added_loop channelUserIDs userEmails w) = None ->
     email_lookups (trace_of (added_loop channelUserIDs userEmails w))
       = userEmails /\
     Forall (member_present channelUserIDs)
            (trace_of (added_loop channelUserIDs userEmails w))) /\
    (forall v,
        value_of (added_loop channelUserIDs userEmails w) = Some v ->
        (v = (true, None) /\
         exists pre email user,
           trace_of (added_loop channelUserIDs userEmails w)
             = pre ++ [EvGetUserByEmail email (Ok user)] /\
           id_found channelUserIDs (User_ID user) = false) \/
        exists err, v = (false, Some err)).
Proof.
  induction userEmails as [ | email rest IH]; intros w; cbn [added_loop].
  - split; [ constructor | ].
    split; [ intros _; split; [ reflexivity | constructor ] | ].
    intros v H. discriminate H.
  - unfold api_GetUserByEmail. step E. destruct r as [user | err].
    + destruct (id_found channelUserIDs (User_ID user)) eqn:Hfound;
        cbn [negb].
      * destruct (IH w0) as (Hshape & Hnone & Hsome).
        split; [ constructor; [ reflexivity | exact Hshape ] | ].
        split.
        { intros Hv. destruct (Hnone Hv) as [Hl Hp].
          split; [ cbn; f_equal; exact Hl | ].
          constructor; [ exact Hfound | exact Hp ]. }
        intros v Hv.
        destruct (Hsome v Hv)
          as [(-> & pre & e & u & Ht & Hf) | (err & ->)].
        { left. split; [ reflexivity | ].
          exists (EvGetUserByEmail email (Ok user) :: pre), e, u.
          rewrite Ht. split; [ reflexivity | exact Hf ]. }
        right. exists err. reflexivity.
      * split; [ repeat constructor | ].
        split; [ intros H; discriminate H | ].
        intros v Hv. injection Hv as <-. left.
        split; [ reflexivity | ].
        exists [], email, user. split; [ reflexivity | exact Hfound ].
    + split; [ repeat constructor | ].
      split; [ intros H; discriminate H | ].
      intros v Hv. injection Hv as <-. right. exists err. reflexivity.
Qed.

Lemma removed_loop_facts userEmails channelUserIDs :
  forall w,
    Forall (fun ev => is_user_info ev = true)
           (trace_of (removed_loop userEmails channelUserIDs w)) /\
    (value_of (removed_loop userEmails channelUserIDs w) = None ->
     info_requests (trace_of (removed_loop userEmails channelUserIDs w))
       = channelUserIDs /\
     Forall (member_wanted userEmails)
            (trace_of (removed_loop userEmails channelUserIDs w))) /\
    (forall v,
        value_of (removed_loop userEmails channelUserIDs w) = Some v ->
        v = (true, None) \/ exists err, v = (false, Some err)).
Proof.
  induction channelUserIDs as [ | userId rest IH]; intros w;
    cbn [removed_loop].
  - split; [ constructor | ].
    split; [ intros _; split; [ reflexivity | constructor ] | ].
    intros v H. discriminate H.
  - unfold api_GetUserInfo. step E. destruct r as [user | err].
    + destruct (to_remove userEmails user) eqn:Hrm.
      * unfold to_remove in Hrm. apply andb_true_iff in Hrm.
        destruct Hrm as [Hbot Hfound]. rewrite Hbot, Hfound.
        split; [ repeat constructor | ].
        split; [ intros H; discriminate H | ].
        intros v Hv. injection Hv as <-. left. reflexivity.
      * assert (Hskip :
          (if negb (IsBot user)
           then if negb (email_found userEmails (Profile_Email user))
                then ret (Some (true, None))
                else removed_loop userEmails rest
           else removed_loop userEmails rest)
          = removed_loop userEmails rest).
        { unfold to_remove in Hrm.
          destruct (negb (IsBot user)); [ | reflexivity ].
          destruct (negb (email_found userEmails (Profile_Email user)));
            [ discriminate Hrm | reflexivity ]. }
        rewrite Hskip. destruct (IH w0) as (Hshape & Hnone & Hsome).
        split; [ constructor; [ reflexivity | exact Hshape ] | ].
        split; [ | exact Hsome ].
        intros Hv. destruct (Hnone Hv) as [Hl Hp].
        split; [ cbn; f_equal; exact Hl | ].
        constructor; [ exact Hrm | exact Hp ].
    + split; [ repeat constructor | ].
      split; [ intros H; discriminate H | ].
      intros v Hv. injection Hv as <-. right. exists err. reflexivity.
Qed.

Lemma email_lookups_app_r l1 l2 :
  email_lookups l2 = [] -> email_lookups (l1 ++ l2) = email_lookups l1.
Proof.
  unfold email_lookups. intros H. rewrite flat_map_app, H, app_nil_r.
  reflexivity.
Qed.

Lemma info_requests_app_l l1 l2 :
  info_requests l1 = [] -> info_requests (l1 ++ l2) = info_requests l2.
Proof.
  unfold info_requests. intros H. rewrite flat_map_app, H. reflexivity.
Qed.

Lemma membership_drift_no_drift channelID userEmails w :
  value_of (membership_drift channelID userEmails w) = (false, None) ->
  exists channelUserIDs cursor rest,
    trace_of (membership_drift channelID userEmails w)
      = EvGetUsersInConversation (members_request channelID)
                                 (Ok (channelUserIDs, cursor)) :: rest /\
    email_lookups rest = userEmails /\
    Forall (member_present channelUserIDs) rest /\
    info_requests rest = channelUserIDs /\
    Forall (member_wanted userEmails) rest.
Proof.
  open_membership_drift channelID userEmails w.
  - intros ->.
    destruct (added_loop_facts userIDs userEmails w1) as (_ & _ & Hsome).
    rewrite Eadded in Hsome. cbn [value_of fst] in Hsome.
    destruct (Hsome _ eq_refl) as [[H _] | [err H]]; discriminate H.
  - destruct (added_loop_facts userIDs userEmails w1) as (Hsa & Hna & _).
    rewrite Eadded in Hsa, Hna. cbn [value_of trace_of fst snd] in Hsa, Hna.
    destruct (Hna eq_refl) as [Hlookups Hpresent].
    destruct (email_lookups_only ta Hsa) as (Hia & Hwa & _).
    destruct (removed_loop_facts userEmails userIDs w2) as (Hsd & Hnd & Hsome).
    rewrite Eremoved in Hsd, Hnd, Hsome.
    cbn [value_of trace_of fst snd] in Hsd, Hnd, Hsome.
    destruct (user_infos_only td Hsd) as (Hld & Hpd & _).
    destruct d as [v | ]; cbn [ret value_of fst].
    + intros ->.
      destruct (Hsome _ eq_refl) as [H | [err H]]; discriminate H.
    + intros _. destruct (Hnd eq_refl) as [Hinfos Hwanted].
      exists userIDs, cursor, (ta ++ td). rewrite app_nil_r.
      split; [ reflexivity | ].
      split; [ rewrite (email_lookups_app_r ta td Hld); exact Hlookups | ].
      split; [ apply Forall_app; split; [ exact Hpresent | apply Hpd ] | ].
      split; [ rewrite (info_requests_app_l ta td Hia); exact Hinfos | ].
      apply Forall_app; split; [ apply Hwa | exact Hwanted ].
  - intros H. discriminate H.
Qed.


Lemma membership_drift_reads channelID userEmails w :
  Forall (fun ev => is_read ev = true)
         (trace_of (membership_drift channelID userEmails w)).
Proof.
  open_membership_drift channelID userEmails w.
  - destruct (added_loop_facts userIDs userEmails w1) as (Hsa & _ & _).
    rewrite Eadded in Hsa. cbn [trace_of snd] in Hsa.
    rewrite app_nil_r. constructor; [ reflexivity | ].
    apply email_lookups_only. exact Hsa.
  - destruct (added_loop_facts userIDs userEmails w1) as (Hsa & _ & _).
    rewrite Eadded in Hsa. cbn [trace_of snd] in Hsa.
    destruct (removed_loop_facts userEmails userIDs w2) as (Hsd & _ & _).
    rewrite Eremoved in Hsd. cbn [trace_of snd] in Hsd.
    constructor; [ reflexivity | ].
    apply Forall_app. split; [ apply email_lookups_only; exact Hsa | ].
    apply Forall_app. split; [ apply user_infos_only; exact Hsd | ].
    destruct d; constructor.
  - repeat constructor.
Qed.

(** The attribute comparisons as one decision. *)
Lemma attributes_match_dec channel existing :
  attributes_match channel existing \/ ~ attributes_match channel existing.
Proof.
  unfold attributes_match.
  destruct (String.eqb_spec (UnescapeString (Name existing))
                            (Spec_Name channel));
    [ | right; intros (H & _ & _); contradiction ].
  destruct (String.eqb_spec (UnescapeString (Topic_Value existing))
                            (Spec_Topic channel));
    [ | right; intros (_ & H & _); contradiction ].
  destruct (String.eqb_spec (UnescapeString (Purpose_Value existing))
                            (Spec_Description channel));
    [ | right; intros (_ & _ & H); contradiction ].
  left. repeat split; assumption.
Qed.

Lemma IsChannelUpdated_run_no_match channel w existingChannel w1 :
  GetConversationInfo api (Status_ID channel) false w
    = (Ok existingChannel, w1) ->
  ~ attributes_match channel existingChannel ->
  IsChannelUpdated channel w =
    ((true, None), w1,
     [EvGetConversationInfo (Status_ID channel) false (Ok existingChannel)]).
Proof.
  intros H Hno. apply IsChannelUpdated_run_mismatch; [ exact H | ].
  unfold attributes_match in Hno.
  destruct (String.eqb_spec (UnescapeString (Name existingChannel))
                            (Spec_Name channel)); [ | left; assumption ].
  destruct (String.eqb_spec (UnescapeString (Topic_Value existingChannel))
                            (Spec_Topic channel));
    [ | right; left; assumption ].
  destruct (String.eqb_spec (UnescapeString (Purpose_Value existingChannel))
                            (Spec_Description channel));
    [ | right; right; assumption ].
  exfalso. apply Hno. repeat split; assumption.
Qed.

(** X9.  A verdict of "no drift" is backed by a complete comparison.  When
    IsChannelUpdated returns (false, nil), it fetched the channel and
    found name, topic and description equal after unescaping, listed the
    members, looked up every desired email, in order, and found each
    resolved user among the listed IDs, and asked for the profile of
    every listed member, in order, and found each one to be a bot or to
    have a desired email. *)
Theorem IsChannelUpdated_no_drift_is_sound :
  forall channel w,
    value_of (IsChannelUpdated channel w) = (false, None) ->
    exists existingChannel channelUserIDs cursor rest,
      trace_of (IsChannelUpdated channel w)
        = EvGetConversationInfo (Status_ID channel) false (Ok existingChannel)
          :: EvGetUsersInConversation (members_request (Status_ID channel))
                                      (Ok (channelUserIDs, cursor))
          :: rest /\
      attributes_match channel existingChannel /\
      email_lookups rest = Spec_Users channel /\
      Forall (member_present channelUserIDs) rest /\
      info_requests rest = channelUserIDs /\
      Forall (member_wanted (Spec_Users channel)) rest.
Proof.
  intros channel w.
  destruct (GetConversationInfo api (Status_ID channel) false w)
    as [[existing | err] w1] eqn:E.
  - destruct (attributes_match_dec channel existing) as [Hm | Hno].
    + destruct Hm as (Hn & Ht & Hd).
      rewrite (IsChannelUpdated_run_match _ _ _ _ E Hn Ht Hd).
      cbn [value_of trace_of fst snd]. intros Hv.
      destruct (membership_drift_no_drift _ _ _ Hv)
        as (ids & cursor & rest & -> & H).
      exists existing, ids, cursor, rest.
      split; [ reflexivity | ]. split; [ repeat split; assumption | exact H ].
    + rewrite (IsChannelUpdated_run_no_match _ _ _ _ E Hno).
      intros H. discriminate H.
  - rewrite (IsChannelUpdated_run_error _ _ _ _ E). intros H. discriminate H.
Qed.


(** ** Further properties: reading and searching *)

Lemma GetChannelByName_loop_requests name :
  forall fuel cursor w,
    Forall (fun ev =>
              exists c r, ev = EvGetConversations (channels_request c) r)
           (trace_of (GetChannelByName_loop fuel name cursor w)).
Proof.
  induction fuel as [ | fuel IH]; intros cursor w;
    cbn [GetChannelByName_loop]; [ constructor | ].
  unfold api_GetConversations. fold (channels_request cursor). step E.
  constructor; [ eexists _, _; reflexivity | ].
  destruct r as [[channels nextCursor] | err]; [ | constructor ].
  destruct (scan_channels channels name); [ constructor | ].
  destruct (String.eqb nextCursor ""); [ constructor | apply IH ].
Qed.

(** X11.  The query methods only read.  Every remote call made by
    GetChannel, GetUsersInChannel and IsChannelUpdated is a read (channel
    info, member list, user by email, user info), and every call made by
    GetChannelByName is a channel-list request for private and public
    channels, archived ones included, with a page limit of 200. *)
Theorem queries_only_read :
  forall channelID channel fuel name w,
    Forall (fun ev => is_read ev = true) (trace_of (GetChannel channelID w)) /\
    Forall (fun ev => is_read ev = true)
           (trace_of (GetUsersInChannel channelID w)) /\
    Forall (fun ev => is_read ev = true)
           (trace_of (IsChannelUpdated channel w)) /\
    Forall (fun ev =>
              exists c r, ev = EvGetConversations (channels_request c) r)
           (trace_of (GetChannelByName fuel name w)).
Proof.
  intros channelID channel fuel name w. split; [ | split; [ | split ] ].
  - unfold GetChannel, api_GetConversationInfo. step E.
    destruct r; repeat constructor.
  - destruct (GetUsersInConversation api (members_request channelID) w)
      as [r w1] eqn:E.
    rewrite (GetUsersInChannel_run _ _ _ _ E). repeat constructor.
  - destruct (IsChannelUpdated_cases channel w)
      as [(err & w1 & ->) | [(c & w1 & ->) | (c & w1 & ->)]];
      cbn [trace_of snd]; try (repeat constructor).
    apply membership_drift_reads.
  - apply GetChannelByName_loop_requests.
Qed.

Lemma GetChannelByName_loop_error name :
  forall fuel cursor w pre params err post,
    trace_of (GetChannelByName_loop fuel name cursor w)
      = pre ++ EvGetConversations params (Err err) :: post ->
    post = [] /\
    value_of (GetChannelByName_loop fuel name cursor w) = Some (Err err).
Proof.
  induction fuel as [ | fuel IH]; intros cursor w pre params err post;
    cbn [GetChannelByName_loop].
  - intros H. destruct pre; discriminate H.
  - unfold api_GetConversations. step E.
    destruct r as [[channels nextCursor] | err0].
    + destruct (scan_channels channels name);
        [ intros H; destruct pre as [ | p pre];
          [ discriminate H | injection H as _ H; destruct pre; discriminate H ]
        | ].
      destruct (String.eqb nextCursor "");
        [ intros H; destruct pre as [ | p pre];
          [ discriminate H | injection H as _ H; destruct pre; discriminate H ]
        | ].
      intros H. destruct pre as [ | p pre]; [ discriminate H | ].
      injection H as _ H. eapply IH. exact H.
    + intros H. destruct pre as [ | p pre].
      * injection H as _ <- <-. split; reflexivity.
      * injection H as _ H. destruct pre; discriminate H.
Qed.

(** X12.  GetChannelByName passes on the first page-request failure: a
    failed request is the last call made and its error is returned. *)
Theorem GetChannelByName_request_error_is_returned :
  forall fuel name w pre params err post,
    trace_of (GetChannelByName fuel name w)
      = pre ++ EvGetConversations params (Err err) :: post ->
    post = [] /\
    value_of (GetChannelByName fuel name w) = Some (Err err).
Proof.
  intros fuel name w. apply GetChannelByName_loop_error.
Qed.

Lemma scan_channels_Some l name channel :
  scan_channels l name = Some channel ->
  exists before after,
    l = before ++ channel :: after /\
    Name channel = name /\
    Forall (fun c => Name c <> name) before.
Proof.
  induction l as [ | c l IH]; simpl; [ discriminate | ].
  destruct (String.eqb_spec (Name c) name) as [Heq | Hne].
  - intros H. injection H as <-. exists [], l.
    split; [ reflexivity | ]. split; [ exact Heq | constructor ].
  - intros H. destruct (IH H) as (before & after & -> & Hname & Hb).
    exists (c :: before), after.
    split; [ reflexivity | ]. split; [ exact Hname | ].
    constructor; assumption.
Qed.

Lemma GetChannelByName_loop_sound name channel :
  forall fuel cursor w,
    value_of (GetChannelByName_loop fuel name cursor w) = Some (Ok channel) ->
    exists pre c before after next,
      trace_of (GetChannelByName_loop fuel name cursor w)
        = pre ++ [EvGetConversations (channels_request c)
                    (Ok (before ++ channel :: after, next))] /\
      Name channel = name /\
      Forall (fun c0 => Name c0 <> name) before /\
      Forall (page_without_match name) pre.
Proof.
  induction fuel as [ | fuel IH]; intros cursor w;
    cbn [GetChannelByName_loop]; [ discriminate | ].
  unfold api_GetConversations. fold (channels_request cursor). step E.
  destruct r as [[channels nextCursor] | err]; [ | discriminate ].
  destruct (scan_channels channels name) as [found | ] eqn:Hscan.
  - intros H. injection H as ->.
    destruct (scan_channels_Some _ _ _ Hscan)
      as (before & after & -> & Hname & Hb).
    exists [], cursor, before, after, nextCursor.
    split; [ reflexivity | ]. split; [ exact Hname | ].
    split; [ exact Hb | constructor ].
  - destruct (String.eqb_spec nextCursor "") as [Hend | Hmore];
      [ discriminate | ].
    intros H.
    destruct (IH _ _ H) as (pre & c & before & after & next & -> & Hn & Hb & Hp).
    exists (EvGetConversations (channels_request cursor)
              (Ok (channels, nextCursor)) :: pre), c, before, after, next.
    split; [ reflexivity | ]. split; [ exact Hn | ]. split; [ exact Hb | ].
    constructor; [ | exact Hp ].
    exists cursor, channels, nextCursor.
    split; [ reflexivity | ].
    split; [ apply scan_channels_none; exact Hscan | exact Hmore ].
Qed.

(** X13.  A channel returned by GetChannelByName is a genuine first match,
    whatever the platform does: its name equals the requested name
    exactly as stored (no unescaping), it comes from the last page
    received, no channel before it in that page has the name, and every
    earlier page was received without a match and with a cursor to
    follow. *)
Theorem GetChannelByName_result_is_first_match :
  forall fuel name w channel,
    value_of (GetChannelByName fuel name w) = Some (Ok channel) ->
    exists pre c before after next,
      trace_of (GetChannelByName fuel name w)
        = pre ++ [EvGetConversations (channels_request c)
                    (Ok (before ++ channel :: after, next))] /\
      Name channel = name /\
      Forall (fun c0 => Name c0 <> name) before /\
      Forall (page_without_match name) pre.
Proof.
  intros fuel name w channel. apply GetChannelByName_loop_sound.
Qed.

Lemma GetChannelByName_loop_endless name (Inv : W -> string -> Prop) :
  (forall w cursor,
      Inv w cursor ->
      exists channels next w1,
        GetConversations api (channels_request cursor) w
          = (Ok (channels, next), w1) /\
        Forall (fun c => Name c <> name) channels /\
        next <> "" /\
        Inv w1 next) ->
  forall fuel w cursor,
    Inv w cursor ->
    value_of (GetChannelByName_loop fuel name cursor w) = None /\
    length (trace_of (GetChannelByName_loop fuel name cursor w)) = fuel.
Proof.
  intros Hinv. induction fuel as [ | fuel IH]; intros w cursor HI;
    [ split; reflexivity | ].
  destruct (Hinv w cursor HI) as (channels & next & w1 & Hget & Hno & Hne & HI').
  rewrite (GetChannelByName_loop_step _ _ _ _ _ _ _ Hget).
  apply scan_channels_none in Hno. rewrite Hno.
  apply String.eqb_neq in Hne. rewrite Hne.
  cbn [value_of trace_of fst snd length].
  destruct (IH w1 next HI') as [Hv Hl]. split; [ exact Hv | ].
  rewrite Hl. reflexivity.
Qed.

(** X14.  GetChannelByName has no bound of its own.  Against a platform
    that keeps answering with a non-empty cursor and never shows a
    channel of the requested name, the loop goes on: whatever number of
    iterations it is allowed, it makes that many page requests and has
    not returned. *)
Theorem GetChannelByName_follows_cursors_without_bound :
  forall name (Inv : W -> string -> Prop),
    (forall w cursor,
        Inv w cursor ->
        exists channels next w1,
          GetConversations api (channels_request cursor) w
            = (Ok (channels, next), w1) /\
          Forall (fun c => Name c <> name) channels /\
          next <> "" /\
          Inv w1 next) ->
    forall fuel w,
      Inv w "" ->
      value_of (GetChannelByName fuel name w) = None /\
      length (trace_of (GetChannelByName fuel name w)) = fuel.
Proof.
  intros name Inv Hinv fuel w HI.
  apply (GetChannelByName_loop_endless name Inv Hinv fuel w "" HI).
Qed.

(** ** Further properties: adopting an existing channel *)

(** X15.  The resource made from an existing channel holds the stored
    attribute values as they are, while IsChannelUpdated unescapes the
    stored values before comparing.  So for a resource whose name, topic
    and description are those of GetChannelCRFromChannel of the fetched
    channel: if unescaping changes one of the three stored values,
    IsChannelUpdated reports drift right after the fetch; if it changes
    none, the attribute checks pass and the membership listing follows. *)
Theorem adopted_attributes_drift_iff_unescaping_changes_them :
  forall channel w existingChannel w1,
    GetConversationInfo api (Status_ID channel) false w
      = (Ok existingChannel, w1) ->
    Spec_Name channel = Spec_Name (GetChannelCRFromChannel existingChannel) ->
    Spec_Topic channel = Spec_Topic (GetChannelCRFromChannel existingChannel) ->
    Spec_Description channel
      = Spec_Description (GetChannelCRFromChannel existingChannel) ->
    (UnescapeString (Name existingChannel) <> Name existingChannel \/
     UnescapeString (Topic_Value existingChannel)
       <> Topic_Value existingChannel \/
     UnescapeString (Purpose_Value existingChannel)
       <> Purpose_Value existingChannel ->
     IsChannelUpdated channel w =
       ((true, None), w1,
        [EvGetConversationInfo (Status_ID channel) false
                               (Ok existingChannel)])) /\
    (UnescapeString (Name existingChannel) = Name existingChannel ->
     UnescapeString (Topic_Value existingChannel)
       = Topic_Value existingChannel ->
     UnescapeString (Purpose_Value existingChannel)
       = Purpose_Value existingChannel ->
     IsChannelUpdated channel w =
       (value_of (membership_drift (Status_ID channel) (Spec_Users channel) w1),
        world_of (membership_drift (Status_ID channel) (Spec_Users channel) w1),
        EvGetConversationInfo (Status_ID channel) false (Ok existingChannel)
        :: trace_of
             (membership_drift (Status_ID channel) (Spec_Users channel) w1))).
Proof.
  intros channel w existingChannel w1 H Hn Ht Hd.
  cbn [GetChannelCRFromChannel Spec_Name Spec_Topic Spec_Description]
    in Hn, Ht, Hd.
  split.
  - intros Hchanged. apply IsChannelUpdated_run_mismatch; [ exact H | ].
    rewrite Hn, Ht, Hd. exact Hchanged.
  - intros Hn' Ht' Hd'. apply IsChannelUpdated_run_match; [ exact H | | | ];
      congruence.
Qed.

(** X16.  The resource made from an existing channel passes
    IsValidChannel exactly when the channel has at least one member ID,
    and it never carries the channel's ID: its Status.ID is empty and its
    Users are the channel's member IDs, not emails. *)
Theorem adopted_channel_valid_iff_it_has_members :
  forall existingChannel,
    (IsValidChannel (GetChannelCRFromChannel existingChannel) = None <->
     Members existingChannel <> []) /\
    (IsValidChannel (GetChannelCRFromChannel existingChannel)
       = Some (Errorf "Users can not be empty") <->
     Members existingChannel = []) /\
    Status_ID (GetChannelCRFromChannel existingChannel) = "" /\
    Spec_Users (GetChannelCRFromChannel existingChannel)
      = Members existingChannel.
Proof.
  intros existingChannel. unfold IsValidChannel.
  cbn [GetChannelCRFromChannel Spec_Users Status_ID].
  destruct (Members existingChannel) as [ | member rest].
  - cbn. repeat split; try reflexivity; try discriminate.
    intros H. contradiction.
  - cbn [length].
    destruct (Z.ltb_spec (Z.of_nat (S (length rest))) 1) as [Hlt | Hge];
      [ lia | ].
    repeat split; try reflexivity; try discriminate.
Qed.

End Service.

(** ** The service on the in-memory client *)

(** C9.  GetUsersInChannel does not return every member when the platform
    serves the membership in more than one page.  Here the members of
    channel C1 are U1 (first page, next cursor "page2") and U3 (page
    "page2"): GetUsersInChannel makes a single request, with the empty
    cursor and limit 100000, drops the cursor of the reply and returns
    U1 alone, although the platform would serve U3 for cursor "page2". *)
Theorem GetUsersInChannel_returns_first_page_only :
  GetUsersInChannel fake "C1" world_two_member_pages =
    (Ok ["U1"], world_two_member_pages,
     [EvGetUsersInConversation (members_request "C1")
                               (Ok (["U1"], "page2"))]) /\
  GetUsersInConversation fake
    {| gu_ChannelID := "C1"; gu_Cursor := "page2"; gu_Limit := 100000 |}
    world_two_member_pages
    = (Ok (["U3"], ""), world_two_member_pages) /\
  ~ In "U3" ["U1"].
Proof.
  split; [ reflexivity | ]. split; [ reflexivity | ].
  intros [H | []]. discriminate H.
Qed.

(** The topic stored as "Launch &amp;co" already reads "Launch &co": one
    read, no write.  Asking for "launch" instead does write. *)
Lemma setters_write_only_on_mismatch_witness :
  SetTopic fake unescape_amp "C1" "Launch &co" world_team =
    (Ok team_x, world_team, [EvGetConversationInfo "C1" false (Ok team_x)]) /\
  exists channel w1,
    GetConversationInfo fake "C1" false world_team = (Ok channel, w1) /\
    unescape_amp (Topic_Value channel) <> "launch".
Proof.
  split.
  - apply (proj1 (proj1 (setters_write_only_on_mismatch
                           fake unescape_amp "C1" "Launch &co" world_team)
                        team_x world_team eq_refl)).
    reflexivity.
  - apply (proj1 (proj2 (setters_write_only_on_mismatch
                           fake unescape_amp "C1" "launch" world_team))).
    reflexivity.
Defined.

(** Emails a, b, c where b is unknown and c is already a member. *)
Lemma InviteUsers_best_effort_witness :
  InviteUsers fake errorf_plain "C1" ["a@co.com"; "b@co.com"; "c@co.com"]
              world_team =
    (["Error fetching user by Email b@co.com"], world_team,
     [EvGetUserByEmail "a@co.com" (Ok user_a);
      EvInviteUsersToConversation "C1" ["U1"] (Ok team_x);
      EvGetUserByEmail "b@co.com" (Err "users_not_found");
      EvGetUserByEmail "c@co.com" (Ok user_c);
      EvInviteUsersToConversation "C1" ["U3"] (Err "already_in_channel")]).
Proof.
  exact (proj2 (InviteUsers_best_effort fake errorf_plain "C1")
               "a@co.com" "b@co.com" "c@co.com" world_team
               user_a world_team team_x world_team "users_not_found"
               world_team user_c world_team world_team
               eq_refl eq_refl eq_refl eq_refl eq_refl).
Defined.

(** Members x, y, z, none desired, the kick of x refused. *)
Lemma RemoveUsers_fail_fast_on_kick_witness :
  RemoveUsers fake "C1" ["a@co.com"] world_xyz =
    (Some "cant_kick_from_general", world_xyz,
     [EvGetUsersInConversation (members_request "C1")
                               (Ok (["UX"; "UY"; "UZ"], ""));
      EvGetUserInfo "UX" (Ok user_x);
      EvKickUserFromConversation "C1" "UX" (Some "cant_kick_from_general")])
  /\
  ([] = @nil Event /\
   value_of (RemoveUsers fake "C1" ["a@co.com"] world_xyz)
     = Some "cant_kick_from_general").
Proof.
  split.
  - exact (proj2 (RemoveUsers_fail_fast_on_kick fake "C1" ["a@co.com"]
                                                world_xyz)
                 "UX" "UY" "UZ" "" world_xyz user_x world_xyz
                 "cant_kick_from_general" world_xyz
                 eq_refl eq_refl eq_refl eq_refl eq_refl).
  - exact (proj1 (RemoveUsers_fail_fast_on_kick fake "C1" ["a@co.com"]
                                                world_xyz)
                 [EvGetUsersInConversation (members_request "C1")
                    (Ok (["UX"; "UY"; "UZ"], ""));
                  EvGetUserInfo "UX" (Ok user_x)]
                 "C1" "UX" "cant_kick_from_general" [] eq_refl).
Defined.

(** Listing fails outright; or the profile of a listed member cannot be
    fetched. *)
Lemma RemoveUsers_fail_fast_on_reads_witness :
  RemoveUsers fake "C1" ["a@co.com"] world_nolist =
    (Some "invalid_cursor", world_nolist,
     [EvGetUsersInConversation (members_request "C1")
                               (Err "invalid_cursor")]) /\
  ([] = @nil Event /\
   value_of (RemoveUsers fake "C1" ["a@co.com"] world_ghost)
     = Some "users_not_found").
Proof.
  split.
  - exact (proj1 (RemoveUsers_fail_fast_on_reads fake "C1" ["a@co.com"]
                                                 world_nolist)
                 "invalid_cursor" world_nolist eq_refl).
  - exact (proj2 (RemoveUsers_fail_fast_on_reads fake "C1" ["a@co.com"]
                                                 world_ghost)
                 [EvGetUsersInConversation (members_request "C1")
                    (Ok (["U1"; "GHOST"], ""));
                  EvGetUserInfo "U1" (Ok user_a)]
                 "GHOST" "users_not_found" [] eq_refl).
Defined.

(** A bot that nobody asked for is skipped; the kick in the x, y, z
    scenario follows the reply for x, who is no bot; and with no desired
    member at all, drift is reported on the person, not on the bot. *)
Lemma bots_are_never_removed_witness :
  RemoveUsers_loop fake "C1" [] ["B1"] world_team =
    (None, world_team, [EvGetUserInfo "B1" (Ok bot)]) /\
  (exists pre' userId user,
      [EvGetUsersInConversation (members_request "C1")
         (Ok (["UX"; "UY"; "UZ"], ""));
       EvGetUserInfo "UX" (Ok user_x)]
        = pre' ++ [EvGetUserInfo userId (Ok user)] /\
      IsBot user = false /\
      email_found ["a@co.com"] (Profile_Email user) = false /\
      "UX" = User_ID user) /\
  (IsBot user_a = false /\ email_found [] (Profile_Email user_a) = false).
Proof.
  split; [ | split ].
  - exact (proj1 (proj1 (proj2 (bots_are_never_removed
                                  fake unescape_amp "C1" [] world_team))
                        "B1" [] bot world_team eq_refl eq_refl)).
  - exact (proj1 (bots_are_never_removed
                    fake unescape_amp "C1" ["a@co.com"] world_xyz)
                 [EvGetUsersInConversation (members_request "C1")
                    (Ok (["UX"; "UY"; "UZ"], ""));
                  EvGetUserInfo "UX" (Ok user_x)]
                 "C1" "UX" (Some "cant_kick_from_general") [] eq_refl).
  - exact (proj2 (proj2 (bots_are_never_removed
                           fake unescape_amp "C1" [] world_team))
                 (mkChannelCR "team-x" "" "Launch &co" true [] "C1")
                 [EvGetConversationInfo "C1" false (Ok team_x);
                  EvGetUsersInConversation (members_request "C1")
                    (Ok (["U1"; "B1"], ""))]
                 "U1" user_a eq_refl eq_refl).
Defined.

(** The desired name is "team-y" while the channel is called "team-x". *)
Lemma IsChannelUpdated_attributes_before_membership_witness :
  IsChannelUpdated fake unescape_amp
    (mkChannelCR "team-y" "" "Launch &co" true ["a@co.com"] "C1") world_team =
    ((true, None), world_team,
     [EvGetConversationInfo "C1" false (Ok team_x)]).
Proof.
  apply (proj1 (IsChannelUpdated_attributes_before_membership
                  fake unescape_amp
                  (mkChannelCR "team-y" "" "Launch &co" true ["a@co.com"] "C1")
                  world_team team_x world_team eq_refl)).
  intros H. discriminate H.
Defined.

(** All attributes agree, then the profile of a listed member cannot be
    fetched. *)
Lemma IsChannelUpdated_lookup_failure_aborts_witness :
  [] = @nil Event /\
  value_of (IsChannelUpdated fake unescape_amp
              (mkChannelCR "team-x" "" "Launch &co" true ["a@co.com"] "C1")
              world_ghost)
    = (false, Some "users_not_found").
Proof.
  exact (IsChannelUpdated_lookup_failure_aborts
           fake unescape_amp
           (mkChannelCR "team-x" "" "Launch &co" true ["a@co.com"] "C1")
           world_ghost
           [EvGetConversationInfo "C1" false (Ok team_x);
            EvGetUsersInConversation (members_request "C1")
              (Ok (["U1"; "GHOST"], ""));
            EvGetUserByEmail "a@co.com" (Ok user_a);
            EvGetUserInfo "U1" (Ok user_a)]
           (EvGetUserInfo "GHOST" (Err "users_not_found"))
           [] "users_not_found" eq_refl eq_refl eq_refl).
Defined.

Lemma world_three_pages_serves :
  serves fake world_three_pages ""
    [mkPage "" [general] "p2"; mkPage "p2" [random; team_x] "p3";
     mkPage "p3" [team_x_old] ""]
    world_three_pages.
Proof.
  apply (serves_more fake world_three_pages "" [general] "p2"
                     world_three_pages);
    [ reflexivity | intros H; discriminate H | ].
  apply (serves_more fake world_three_pages "p2" [random; team_x] "p3"
                     world_three_pages);
    [ reflexivity | intros H; discriminate H | ].
  apply serves_last. reflexivity.
Defined.

(** Three pages; "team-x" is found on the second page, before the older
    channel of the same name on the third; "nope" is on none. *)
Lemma GetChannelByName_visits_pages_in_order_witness :
  GetChannelByName fake errorf_plain 3 "nope" world_three_pages =
    (Some (Err ChannelAlreadyExistsError), world_three_pages,
     [EvGetConversations (channels_request "") (Ok ([general], "p2"));
      EvGetConversations (channels_request "p2")
                         (Ok ([random; team_x], "p3"));
      EvGetConversations (channels_request "p3") (Ok ([team_x_old], ""))]) /\
  value_of (GetChannelByName fake errorf_plain 3 "team-x" world_three_pages)
    = Some (Ok team_x).
Proof.
  split.
  - apply (proj1 (proj2 (GetChannelByName_visits_pages_in_order
                           fake errorf_plain "nope")
                        world_three_pages _ world_three_pages 3
                        world_three_pages_serves (le_n 3))).
    repeat constructor; intros H; discriminate H.
  - apply (proj1 (proj2 (proj2 (GetChannelByName_visits_pages_in_order
                                  fake errorf_plain "team-x")
                               world_three_pages _ world_three_pages 3
                               world_three_pages_serves (le_n 3))
                        [general; random] team_x [team_x_old]
                        eq_refl eq_refl
                        ltac:(repeat constructor; intros H; discriminate H))).
Defined.

(** ** Further properties on the in-memory client *)

(** There is no channel C9. *)
Lemma fetch_error_is_returned_witness :
  GetChannel fake "C9" world_team =
    (Err "channel_not_found", world_team,
     [EvGetConversationInfo "C9" false (Err "channel_not_found")]) /\
  IsChannelUpdated fake unescape_amp
    (mkChannelCR "team-x" "" "" true ["a@co.com"] "C9") world_team =
    ((false, Some "channel_not_found"), world_team,
     [EvGetConversationInfo "C9" false (Err "channel_not_found")]).
Proof.
  split.
  - exact (proj1 (fetch_error_is_returned fake unescape_amp "C9" world_team
                    "channel_not_found" world_team eq_refl)).
  - exact (proj2 (proj2 (fetch_error_is_returned
                           fake unescape_amp "C9" world_team
                           "channel_not_found" world_team eq_refl))
                 (mkChannelCR "team-x" "" "" true ["a@co.com"] "C9") eq_refl).
Defined.

(** The stored topic reads "Launch &co"; asking for "launch" writes it. *)
Lemma setters_return_the_write_reply_witness :
  SetTopic fake unescape_amp "C1" "launch" world_team =
    (Ok (mkChannel "C1" "team-x" "launch" "" true ["U1"; "B1"]),
     store_channel (mkChannel "C1" "team-x" "launch" "" true ["U1"; "B1"])
                   world_team,
     [EvGetConversationInfo "C1" false (Ok team_x);
      EvSetTopicOfConversation "C1" "launch"
        (Ok (mkChannel "C1" "team-x" "launch" "" true ["U1"; "B1"]))]).
Proof.
  apply (proj1 (setters_return_the_write_reply
                  fake unescape_amp "C1" "launch" world_team team_x world_team
                  (Ok (mkChannel "C1" "team-x" "launch" "" true ["U1"; "B1"]))
                  (store_channel
                     (mkChannel "C1" "team-x" "launch" "" true ["U1"; "B1"])
                     world_team)
                  eq_refl)).
  - intros H. discriminate H.
  - reflexivity.
Defined.

(** The same desired members, listed in another order and twice. *)
Lemma RemoveUsers_desired_emails_as_set_witness :
  RemoveUsers fake "C1" ["a@co.com"; "c@co.com"] world_team =
  RemoveUsers fake "C1" ["c@co.com"; "a@co.com"; "c@co.com"] world_team.
Proof.
  apply (RemoveUsers_desired_emails_as_set
           fake "C1" ["a@co.com"; "c@co.com"]
           ["c@co.com"; "a@co.com"; "c@co.com"] world_team).
  intros email. split.
  - intros [H | [H | []]].
    + right. left. exact H.
    + left. exact H.
  - intros [H | [H | [H | []]]].
    + right. left. exact H.
    + left. exact H.
    + right. left. exact H.
Defined.

(** A person who is desired and a bot: nobody is kicked and both
    profiles were asked for. *)
Lemma RemoveUsers_kicks_exactly_the_unwanted_witness :
  info_requests (trace_of (RemoveUsers fake "C1" ["a@co.com"] world_team))
    = ["U1"; "B1"].
Proof.
  exact (proj2 (proj2 (RemoveUsers_kicks_exactly_the_unwanted
                         fake "C1" ["a@co.com"] world_team))
               ["U1"; "B1"] "" world_team eq_refl eq_refl).
Defined.

(** In that run every call succeeded, so nil is returned. *)
Lemma no_error_iff_every_call_succeeded_witness :
  value_of (RemoveUsers fake "C1" ["a@co.com"] world_team) = None.
Proof.
  apply (proj2 (proj1 (no_error_iff_every_call_succeeded
                         fake unescape_amp "C1" ["a@co.com"]
                         (mkChannelCR "team-x" "" "Launch &co" true
                                      ["a@co.com"] "C1")
                         world_team))).
  repeat constructor.
Defined.

(** The channel of the team scenario matches its desired state. *)
Lemma IsChannelUpdated_no_drift_is_sound_witness :
  exists existingChannel channelUserIDs cursor rest,
    trace_of (IsChannelUpdated fake unescape_amp
                (mkChannelCR "team-x" "" "Launch &co" true ["a@co.com"] "C1")
                world_team)
      = EvGetConversationInfo "C1" false (Ok existingChannel)
        :: EvGetUsersInConversation (members_request "C1")
                                    (Ok (channelUserIDs, cursor))
        :: rest /\
    attributes_match unescape_amp
      (mkChannelCR "team-x" "" "Launch &co" true ["a@co.com"] "C1")
      existingChannel /\
    email_lookups rest = ["a@co.com"] /\
    Forall (member_present channelUserIDs) rest /\
    info_requests rest = channelUserIDs /\
    Forall (member_wanted ["a@co.com"]) rest.
Proof.
  exact (IsChannelUpdated_no_drift_is_sound
           fake unescape_amp
           (mkChannelCR "team-x" "" "Launch &co" true ["a@co.com"] "C1")
           world_team eq_refl).
Defined.


(** The second page request is refused. *)
Lemma GetChannelByName_request_error_is_returned_witness :
  [] = @nil Event /\
  value_of (GetChannelByName fake errorf_plain 5 "team-x" world_broken_page)
    = Some (Err "invalid_cursor").
Proof.
  exact (GetChannelByName_request_error_is_returned
           fake errorf_plain 5 "team-x" world_broken_page
           [EvGetConversations (channels_request "") (Ok ([general], "gone"))]
           (channels_request "gone") "invalid_cursor" [] eq_refl).
Defined.

(** "team-x" is found on the second of three pages. *)
Lemma GetChannelByName_result_is_first_match_witness :
  exists pre c before after next,
    trace_of (GetChannelByName fake errorf_plain 3 "team-x" world_three_pages)
      = pre ++ [EvGetConversations (channels_request c)
                  (Ok (before ++ team_x :: after, next))] /\
    Name team_x = "team-x" /\
    Forall (fun c0 => Name c0 <> "team-x") before /\
    Forall (page_without_match "team-x") pre.
Proof.
  exact (GetChannelByName_result_is_first_match
           fake errorf_plain 3 "team-x" world_three_pages team_x eq_refl).
Defined.

(** The cursor "again" leads back to itself: a hundred iterations make a
    hundred requests and return nothing. *)
Lemma GetChannelByName_follows_cursors_without_bound_witness :
  value_of (GetChannelByName fake errorf_plain 100 "team-x"
                             world_cursor_cycle) = None /\
  length (trace_of (GetChannelByName fake errorf_plain 100 "team-x"
                                     world_cursor_cycle)) = 100.
Proof.
  apply (GetChannelByName_follows_cursors_without_bound
           fake errorf_plain "team-x"
           (fun w cursor =>
              w = world_cursor_cycle /\ (cursor = "" \/ cursor = "again"))).
  - intros w cursor [-> [-> | ->]].
    + exists [general], "again", world_cursor_cycle.
      split; [ reflexivity | ].
      split; [ repeat constructor; intros H; discriminate H | ].
      split; [ intros H; discriminate H | ].
      split; [ reflexivity | right; reflexivity ].
    + exists [random], "again", world_cursor_cycle.
      split; [ reflexivity | ].
      split; [ repeat constructor; intros H; discriminate H | ].
      split; [ intros H; discriminate H | ].
      split; [ reflexivity | right; reflexivity ].
  - split; [ reflexivity | left; reflexivity ].
Defined.

(** Adopting the team channel as it is stored: the stored topic
    "Launch &amp;co" reads "Launch &co", so drift is reported at once. *)
Lemma adopted_attributes_drift_iff_unescaping_changes_them_witness :
  IsChannelUpdated fake unescape_amp
    (mkChannelCR "team-x" "" "Launch &amp;co" true ["U1"; "B1"] "C1")
    world_team =
    ((true, None), world_team,
     [EvGetConversationInfo "C1" false (Ok team_x)]).
Proof.
  apply (proj1 (adopted_attributes_drift_iff_unescaping_changes_them
                  fake unescape_amp
                  (mkChannelCR "team-x" "" "Launch &amp;co" true
                               ["U1"; "B1"] "C1")
                  world_team team_x world_team
                  eq_refl eq_refl eq_refl eq_refl)).
  right. left. intros H. discriminate H.
Defined.

(** The team channel has members; the empty channel has none. *)
Lemma adopted_channel_valid_iff_it_has_members_witness :
  IsValidChannel errorf_plain (GetChannelCRFromChannel team_x) = None /\
  IsValidChannel errorf_plain (GetChannelCRFromChannel empty_channel)
    = Some "Users can not be empty".
Proof.
  split.
  - apply (proj2 (proj1 (adopted_channel_valid_iff_it_has_members
                           errorf_plain team_x))).
    intros H. discriminate H.
  - apply (proj2 (proj1 (proj2 (adopted_channel_valid_iff_it_has_members
                                  errorf_plain empty_channel)))).
    reflexivity.
Defined.
